(** * IncomingVideoStream: the per-stream frame-delivery scheduler

    A shallow embedding of [webrtc/common_video/incoming_video_stream.cc].

    Every member function becomes a computation in a small state-and-log
    monad: the state is the object's fields, the log is the sequence of calls
    the function makes on its collaborators (critical sections, the
    presentation thread, the timed event, the render buffer, the two
    callbacks), each paired with the fields as they are at the time of the
    call.  Values the function obtains from the outside (the clock, the
    outcome of a wait, a freshly allocated thread) are arguments. *)

From Stdlib Require Import ZArith List Bool Lia.
Import ListNotations.
Open Scope Z_scope.

(** ** Fixed-width integers *)

(** Conversion to an unsigned integer type of [bits] bits. *)
Definition wrap (bits x : Z) : Z := x mod 2 ^ bits.

(** [static_cast<uint32_t>] and assignment to a [uint32_t]. *)
Definition uint32 (x : Z) : Z := wrap 32 x.

(** ** Collaborators *)

(** [VideoFrame]: only [IsZeroSize()] is used by this translation unit. *)
Class VideoFrameClass := {
  VideoFrame : Type;
  IsZeroSize : VideoFrame -> bool
}.

(** [VideoRenderFrames], the render buffer: a black box with its own state.
    Every member function takes the buffer and gives back its result and the
    buffer afterwards. *)
Class VideoRenderFramesClass {frame_class : VideoFrameClass} := {
  VideoRenderFrames : Type;
  (** [new VideoRenderFrames()] *)
  VideoRenderFrames_new : VideoRenderFrames;
  (** [int32_t AddFrame(const VideoFrame&)]: the number of frames queued
      after the insertion. *)
  AddFrame : VideoFrame -> VideoRenderFrames -> Z * VideoRenderFrames;
  (** [VideoFrame FrameToRender()]: the frame to show now, or a zero-size one. *)
  FrameToRender : VideoRenderFrames -> VideoFrame * VideoRenderFrames;
  (** [uint32_t TimeToNextFrameRelease()] *)
  TimeToNextFrameRelease : VideoRenderFrames -> Z * VideoRenderFrames;
  (** [int32_t SetRenderDelay(int32_t)] *)
  SetRenderDelay : Z -> VideoRenderFrames -> Z * VideoRenderFrames;
  (** [int32_t ReleaseAllFrames()] *)
  ReleaseAllFrames : VideoRenderFrames -> Z * VideoRenderFrames
}.

(** What the class declaration (the header, which is not part of the
    translation unit) fixes and the member functions use: the three
    constants, numbers of milliseconds that fit an [int], and the width of
    the unsigned type of [num_frames_since_last_calculation_]. *)
Class ClassDeclaration := {
  kEventStartupTimeMs : Z;
  kEventMaxWaitTimeMs : Z;
  kFrameRatePeriodMs : Z;
  num_frames_bits : Z
}.

(** Objects held by pointer are identified by their address. *)
Definition PlatformThread : Type := N.
Definition VideoRenderCallback : Type := N.

(** [EventTypeWrapper], the result of [EventTimerWrapper::Wait]. *)
Inductive EventTypeWrapper : Type :=
| kEventSignaled
| kEventError
| kEventTimeout.

Definition EventTypeWrapper_eqb (a b : EventTypeWrapper) : bool :=
  match a, b with
  | kEventSignaled, kEventSignaled => true
  | kEventError, kEventError => true
  | kEventTimeout, kEventTimeout => true
  | _, _ => false
  end.

(** The three critical sections of the object. *)
Inductive CriticalSection : Type :=
| stream_critsect_
| thread_critsect_
| buffer_critsect_.

Section Model.

Context {frame_class : VideoFrameClass}.
Context {buffer_class : VideoRenderFramesClass}.
Context {decl : ClassDeclaration}.

(** ** The object *)

(** The data members.  A [unique_ptr] or raw pointer is an [option]; [None]
    is the null pointer.  [deliver_buffer_event_] has no field here: the
    calls made on it are logged. *)
Record IncomingVideoStream : Type := {
  stream_id_ : Z;                                   (* uint32_t const *)
  disable_prerenderer_smoothing_ : bool;            (* const bool *)
  incoming_render_thread_ : option PlatformThread;
  running_ : bool;
  external_callback_ : option VideoRenderCallback;
  render_callback_ : option VideoRenderCallback;
  render_buffers_ : VideoRenderFrames;
  incoming_rate_ : Z;                               (* uint32_t *)
  last_rate_calculation_time_ms_ : Z;               (* int64_t *)
  num_frames_since_last_calculation_ : Z            (* unsigned, num_frames_bits wide *)
}.

Definition set_incoming_render_thread_ (v : option PlatformThread)
    (s : IncomingVideoStream) : IncomingVideoStream :=
  {| stream_id_ := stream_id_ s;
     disable_prerenderer_smoothing_ := disable_prerenderer_smoothing_ s;
     incoming_render_thread_ := v;
     running_ := running_ s;
     external_callback_ := external_callback_ s;
     render_callback_ := render_callback_ s;
     render_buffers_ := render_buffers_ s;
     incoming_rate_ := incoming_rate_ s;
     last_rate_calculation_time_ms_ := last_rate_calculation_time_ms_ s;
     num_frames_since_last_calculation_ := num_frames_since_last_calculation_ s |}.

Definition set_running_ (v : bool) (s : IncomingVideoStream) : IncomingVideoStream :=
  {| stream_id_ := stream_id_ s;
     disable_prerenderer_smoothing_ := disable_prerenderer_smoothing_ s;
     incoming_render_thread_ := incoming_render_thread_ s;
     running_ := v;
     external_callback_ := external_callback_ s;
     render_callback_ := render_callback_ s;
     render_buffers_ := render_buffers_ s;
     incoming_rate_ := incoming_rate_ s;
     last_rate_calculation_time_ms_ := last_rate_calculation_time_ms_ s;
     num_frames_since_last_calculation_ := num_frames_since_last_calculation_ s |}.

Definition set_external_callback_ (v : option VideoRenderCallback)
    (s : IncomingVideoStream) : IncomingVideoStream :=
  {| stream_id_ := stream_id_ s;
     disable_prerenderer_smoothing_ := disable_prerenderer_smoothing_ s;
     incoming_render_thread_ := incoming_render_thread_ s;
     running_ := running_ s;
     external_callback_ := v;
     render_callback_ := render_callback_ s;
     render_buffers_ := render_buffers_ s;
     incoming_rate_ := incoming_rate_ s;
     last_rate_calculation_time_ms_ := last_rate_calculation_time_ms_ s;
     num_frames_since_last_calculation_ := num_frames_since_last_calculation_ s |}.

Definition set_render_callback_ (v : option VideoRenderCallback)
    (s : IncomingVideoStream) : IncomingVideoStream :=
  {| stream_id_ := stream_id_ s;
     disable_prerenderer_smoothing_ := disable_prerenderer_smoothing_ s;
     incoming_render_thread_ := incoming_render_thread_ s;
     running_ := running_ s;
     external_callback_ := external_callback_ s;
     render_callback_ := v;
     render_buffers_ := render_buffers_ s;
     incoming_rate_ := incoming_rate_ s;
     last_rate_calculation_time_ms_ := last_rate_calculation_time_ms_ s;
     num_frames_since_last_calculation_ := num_frames_since_last_calculation_ s |}.

Definition set_render_buffers_ (v : VideoRenderFrames)
    (s : IncomingVideoStream) : IncomingVideoStream :=
  {| stream_id_ := stream_id_ s;
     disable_prerenderer_smoothing_ := disable_prerenderer_smoothing_ s;
     incoming_render_thread_ := incoming_render_thread_ s;
     running_ := running_ s;
     external_callback_ := external_callback_ s;
     render_callback_ := render_callback_ s;
     render_buffers_ := v;
     incoming_rate_ := incoming_rate_ s;
     last_rate_calculation_time_ms_ := last_rate_calculation_time_ms_ s;
     num_frames_since_last_calculation_ := num_frames_since_last_calculation_ s |}.

Definition set_incoming_rate_ (v : Z) (s : IncomingVideoStream) : IncomingVideoStream :=
  {| stream_id_ := stream_id_ s;
     disable_prerenderer_smoothing_ := disable_prerenderer_smoothing_ s;
     incoming_render_thread_ := incoming_render_thread_ s;
     running_ := running_ s;
     external_callback_ := external_callback_ s;
     render_callback_ := render_callback_ s;
     render_buffers_ := render_buffers_ s;
     incoming_rate_ := v;
     last_rate_calculation_time_ms_ := last_rate_calculation_time_ms_ s;
     num_frames_since_last_calculation_ := num_frames_since_last_calculation_ s |}.

Definition set_last_rate_calculation_time_ms_ (v : Z)
    (s : IncomingVideoStream) : IncomingVideoStream :=
  {| stream_id_ := stream_id_ s;
     disable_prerenderer_smoothing_ := disable_prerenderer_smoothing_ s;
     incoming_render_thread_ := incoming_render_thread_ s;
     running_ := running_ s;
     external_callback_ := external_callback_ s;
     render_callback_ := render_callback_ s;
     render_buffers_ := render_buffers_ s;
     incoming_rate_ := incoming_rate_ s;
     last_rate_calculation_time_ms_ := v;
     num_frames_since_last_calculation_ := num_frames_since_last_calculation_ s |}.

Definition set_num_frames_since_last_calculation_ (v : Z)
    (s : IncomingVideoStream) : IncomingVideoStream :=
  {| stream_id_ := stream_id_ s;
     disable_prerenderer_smoothing_ := disable_prerenderer_smoothing_ s;
     incoming_render_thread_ := incoming_render_thread_ s;
     running_ := running_ s;
     external_callback_ := external_callback_ s;
     render_callback_ := render_callback_ s;
     render_buffers_ := render_buffers_ s;
     incoming_rate_ := incoming_rate_ s;
     last_rate_calculation_time_ms_ := last_rate_calculation_time_ms_ s;
     num_frames_since_last_calculation_ := v |}.

(** ** Calls on collaborators *)

Inductive Call : Type :=
(* rtc::CritScope: constructor and destructor *)
| Enter (cs : CriticalSection)
| Leave (cs : CriticalSection)
(* TickTime *)
| TickTime_MillisecondTimestamp
(* rtc::PlatformThread and the unique_ptr holding it *)
| Thread_new                          (* new rtc::PlatformThread(...) *)
| Thread_Start (t : PlatformThread)
| Thread_SetPriority (t : PlatformThread)   (* rtc::kRealtimePriority *)
| Thread_release                      (* incoming_render_thread_.release() *)
| Thread_Stop (t : PlatformThread)    (* joins the thread *)
| Thread_delete (t : PlatformThread)
(* EventTimerWrapper, on deliver_buffer_event_ *)
| Event_Set
| Event_StartTimer (periodic : bool) (time : Z)
| Event_StopTimer
| Event_Wait (max_time : Z)
(* VideoRenderFrames, on render_buffers_ *)
| Buffer_AddFrame (f : VideoFrame)
| Buffer_FrameToRender
| Buffer_TimeToNextFrameRelease
| Buffer_SetRenderDelay (delay_ms : Z)
| Buffer_ReleaseAllFrames
(* VideoRenderCallback::RenderFrame, on the object at [cb] *)
| Callback_RenderFrame (cb : VideoRenderCallback) (stream_id : Z) (f : VideoFrame).

(** A log entry: the call, and the object's fields when it is made. *)
Definition Log : Type := list (Call * IncomingVideoStream).

(** ** The monad *)

Definition M (A : Type) : Type :=
  IncomingVideoStream -> A * IncomingVideoStream * Log.

Definition ret {A : Type} (a : A) : M A := fun s => (a, s, []).

Definition bind {A B : Type} (m : M A) (k : A -> M B) : M B :=
  fun s =>
    let '(a, s1, l1) := m s in
    let '(b, s2, l2) := k a s1 in
    (b, s2, l1 ++ l2).

Definition gets {A : Type} (field : IncomingVideoStream -> A) : M A :=
  fun s => (field s, s, []).

Definition modify (f : IncomingVideoStream -> IncomingVideoStream) : M unit :=
  fun s => (tt, f s, []).

Definition call (c : Call) : M unit := fun s => (tt, s, [(c, s)]).

Notation "x <- m ;; k" := (bind m (fun x => k))
  (at level 61, m at next level, right associativity).
Notation "m ;; k" := (bind m (fun _ => k))
  (at level 61, right associativity).

(** [rtc::CritScope cs(&c)] followed by the rest of the enclosing block: the
    section is entered, the block runs, and the section is left on every way
    out of the block, an early [return] included. *)
Definition CritScope {A : Type} (c : CriticalSection) (block : M A) : M A :=
  call (Enter c) ;;
  r <- block ;;
  call (Leave c) ;;
  ret r.

(** Calls on [render_buffers_]: logged, and the buffer replaced by the one the
    call leaves. *)
Definition on_buffer {A : Type} (c : Call)
    (op : VideoRenderFrames -> A * VideoRenderFrames) : M A :=
  call c ;;
  b <- gets render_buffers_ ;;
  modify (set_render_buffers_ (snd (op b))) ;;
  ret (fst (op b)).

(** [incoming_render_thread_.release()]: the stored pointer becomes null and
    the old one is returned. *)
Definition release_incoming_render_thread_ : M (option PlatformThread) :=
  t <- gets incoming_render_thread_ ;;
  modify (set_incoming_render_thread_ None) ;;
  call Thread_release ;;
  ret t.

(** [incoming_render_thread_.reset(p)]: [p] is stored and the thread held
    before, if any, is deleted. *)
Definition reset_incoming_render_thread_ (p : option PlatformThread) : M unit :=
  old <- gets incoming_render_thread_ ;;
  modify (set_incoming_render_thread_ p) ;;
  match old with
  | Some t => call (Thread_delete t)
  | None => ret tt
  end.

(** ** Member functions *)

(** The constructor. *)
Definition IncomingVideoStream_new (stream_id : Z)
    (disable_prerenderer_smoothing : bool) : IncomingVideoStream :=
  {| stream_id_ := stream_id;
     disable_prerenderer_smoothing_ := disable_prerenderer_smoothing;
     incoming_render_thread_ := None;
     running_ := false;
     external_callback_ := None;
     render_callback_ := None;
     render_buffers_ := VideoRenderFrames_new;
     incoming_rate_ := 0;
     last_rate_calculation_time_ms_ := 0;
     num_frames_since_last_calculation_ := 0 |}.

(** [DeliverFrame].  The callback is an object outside the stream; its
    [RenderFrame] is logged with the arguments it receives. *)
Definition DeliverFrame (video_frame : VideoFrame) : M unit :=
  CritScope thread_critsect_ (
    if IsZeroSize video_frame then
      (* No frame. *)
      ret tt
    else
      (* Send frame for rendering. *)
      stream_id <- gets stream_id_ ;;
      external_callback <- gets external_callback_ ;;
      match external_callback with
      | Some cb => call (Callback_RenderFrame cb stream_id video_frame)
      | None =>
          render_callback <- gets render_callback_ ;;
          match render_callback with
          | Some cb => call (Callback_RenderFrame cb stream_id video_frame)
          | None => ret tt
          end
      end).

(** [RenderFrame].  [now] is what [TickTime::MillisecondTimestamp()] returns
    if it is called.  The counter is incremented in its unsigned type.  In
    [1000 * num_frames_since_last_calculation_] the counter, narrower than
    [int], is promoted to [int]; the quotient is taken in [int64_t],
    truncating, and converted to [uint32_t].  Sums and differences of
    [int64_t] times are taken in [Z]: signed overflow, undefined in the
    source, is outside the model. *)
Definition RenderFrame (stream_id : Z) (video_frame : VideoFrame) (now : Z) : M Z :=
  CritScope stream_critsect_ (
    running <- gets running_ ;;
    if negb running then
      ret (-1)
    else
      (* Rate statistics. *)
      modify (fun s =>
        set_num_frames_since_last_calculation_
          (wrap num_frames_bits (num_frames_since_last_calculation_ s + 1)) s) ;;
      call TickTime_MillisecondTimestamp ;;
      let now_ms := now in
      last <- gets last_rate_calculation_time_ms_ ;;
      (if now_ms >=? last + kFrameRatePeriodMs then
         num_frames <- gets num_frames_since_last_calculation_ ;;
         modify (set_incoming_rate_
                   (uint32 (Z.quot (1000 * num_frames) (now_ms - last)))) ;;
         modify (set_num_frames_since_last_calculation_ 0) ;;
         modify (set_last_rate_calculation_time_ms_ now_ms)
       else ret tt) ;;
      (* Hand over or insert frame. *)
      disable_prerenderer_smoothing <- gets disable_prerenderer_smoothing_ ;;
      (if disable_prerenderer_smoothing then
         DeliverFrame video_frame
       else
         CritScope buffer_critsect_ (
           count <- on_buffer (Buffer_AddFrame video_frame) (AddFrame video_frame) ;;
           if count =? 1 then call Event_Set else ret tt)) ;;
      ret 0).

Definition SetRenderCallback (render_callback : option VideoRenderCallback) : M unit :=
  CritScope thread_critsect_ (
    modify (set_render_callback_ render_callback)).

Definition SetExpectedRenderDelay (delay_ms : Z) : M Z :=
  CritScope stream_critsect_ (
    running <- gets running_ ;;
    if running then
      ret (-1)
    else
      CritScope buffer_critsect_ (
        on_buffer (Buffer_SetRenderDelay delay_ms) (SetRenderDelay delay_ms))).

Definition SetExternalCallback (external_callback : option VideoRenderCallback) : M unit :=
  CritScope thread_critsect_ (
    modify (set_external_callback_ external_callback)).

(** [Start].  [fresh] is what [new rtc::PlatformThread(...)] gives if it is
    evaluated.  The [assert] follows the build with [NDEBUG]: it does
    nothing.  (Where it fails in a build without, the process aborts; those
    executions are not among the model's.) *)
Definition Start (fresh : option PlatformThread) : M Z :=
  CritScope stream_critsect_ (
    running <- gets running_ ;;
    if running then
      ret 0
    else
      disable_prerenderer_smoothing <- gets disable_prerenderer_smoothing_ ;;
      failed <-
        (if negb disable_prerenderer_smoothing then
           CritScope thread_critsect_ (
             call Thread_new ;;
             reset_incoming_render_thread_ fresh ;;
             thread <- gets incoming_render_thread_ ;;
             match thread with
             | None => ret true
             | Some t =>
                 call (Thread_Start t) ;;
                 call (Thread_SetPriority t) ;;
                 call (Event_StartTimer false kEventStartupTimeMs) ;;
                 ret false
             end)
         else ret false) ;;
      if failed : bool then
        ret (-1)
      else
        modify (set_running_ true) ;;
        ret 0).

Definition Stop : M Z :=
  CritScope stream_critsect_ (
    running <- gets running_ ;;
    if negb running then
      ret 0
    else
      thread <-
        CritScope thread_critsect_ (
          stored <- gets incoming_render_thread_ ;;
          match stored with
          | Some _ =>
              (* Setting the incoming render thread to NULL marks that we're
                 performing a shutdown and will make
                 IncomingVideoStreamProcess abort after wakeup. *)
              thread <- release_incoming_render_thread_ ;;
              call Event_StopTimer ;;
              (* Set the event to allow the thread to wake up and shut down
                 without waiting for a timeout. *)
              call Event_Set ;;
              ret thread
          | None => ret None
          end) ;;
      match thread with
      | Some t =>
          call (Thread_Stop t) ;;
          call (Thread_delete t)
      | None => ret tt
      end ;;
      modify (set_running_ false) ;;
      ret 0).

Definition Reset : M Z :=
  CritScope buffer_critsect_ (
    on_buffer Buffer_ReleaseAllFrames ReleaseAllFrames ;;
    ret 0).

Definition StreamId (s : IncomingVideoStream) : Z := stream_id_ s.

Definition IncomingRate : M Z :=
  CritScope stream_critsect_ (gets incoming_rate_).

(** [IncomingVideoStreamProcess], the thread function.  [wait_result] is
    what [deliver_buffer_event_->Wait(kEventMaxWaitTimeMs)] returns. *)
Definition IncomingVideoStreamProcess (wait_result : EventTypeWrapper) : M bool :=
  call (Event_Wait kEventMaxWaitTimeMs) ;;
  if negb (EventTypeWrapper_eqb kEventError wait_result) then
    CritScope thread_critsect_ (
      thread <- gets incoming_render_thread_ ;;
      match thread with
      | None =>
          (* Terminating *)
          ret false
      | Some _ =>
          (* Get a new frame to render and the time for the frame after this
             one. *)
          got <- CritScope buffer_critsect_ (
                   frame_to_render <- on_buffer Buffer_FrameToRender FrameToRender ;;
                   wait_time <- on_buffer Buffer_TimeToNextFrameRelease
                                          TimeToNextFrameRelease ;;
                   ret (frame_to_render, uint32 wait_time)) ;;
          let frame_to_render := fst got in
          let wait_time := snd got in
          (* Set timer for next frame to render. *)
          let wait_time :=
            if wait_time >? kEventMaxWaitTimeMs then kEventMaxWaitTimeMs
            else wait_time in
          call (Event_StartTimer false wait_time) ;;
          DeliverFrame frame_to_render ;;
          ret true
      end)
  else
    ret true.

Definition IncomingVideoStreamThreadFun (wait_result : EventTypeWrapper) : M bool :=
  IncomingVideoStreamProcess wait_result.

(** Modelled from the spec: the loop of the presentation thread, which lives
    in [rtc::PlatformThread].  The thread function is run again and again,
    and the loop ends the first time it returns [false].  [waits] lists what
    the successive waits on the wake primitive return; the loop is followed
    for as long as the list lasts.  The result tells whether the loop has
    ended. *)
Fixpoint presentation_loop (waits : list EventTypeWrapper) : M bool :=
  match waits with
  | [] => ret false
  | w :: rest =>
      continue <- IncomingVideoStreamThreadFun w ;;
      if continue : bool then presentation_loop rest else ret true
  end.

(** The destructor. *)
Definition IncomingVideoStream_delete : M Z := Stop.

(** ** Sequences of calls *)

(** One call on the object from outside, or one turn of the thread function,
    with the values it obtains from outside. *)
Inductive Operation : Type :=
| Op_RenderFrame (stream_id : Z) (video_frame : VideoFrame) (now : Z)
| Op_SetRenderCallback (render_callback : option VideoRenderCallback)
| Op_SetExpectedRenderDelay (delay_ms : Z)
| Op_SetExternalCallback (external_callback : option VideoRenderCallback)
| Op_Start (fresh : option PlatformThread)
| Op_Stop
| Op_Reset
| Op_IncomingRate
| Op_Process (wait_result : EventTypeWrapper).

Definition discard {A : Type} (m : M A) : M unit := _ <- m ;; ret tt.

Definition perform (op : Operation) : M unit :=
  match op with
  | Op_RenderFrame stream_id video_frame now =>
      discard (RenderFrame stream_id video_frame now)
  | Op_SetRenderCallback cb => SetRenderCallback cb
  | Op_SetExpectedRenderDelay delay_ms => discard (SetExpectedRenderDelay delay_ms)
  | Op_SetExternalCallback cb => SetExternalCallback cb
  | Op_Start fresh => discard (Start fresh)
  | Op_Stop => discard Stop
  | Op_Reset => discard Reset
  | Op_IncomingRate => discard IncomingRate
  | Op_Process w => discard (IncomingVideoStreamProcess w)
  end.

Fixpoint perform_all (ops : list Operation) : M unit :=
  match ops with
  | [] => ret tt
  | op :: rest => perform op ;; perform_all rest
  end.

(** ** Reading a log *)

Definition calls (l : Log) : list Call := map fst l.

(** The callback invocations of a log, in order: receiver, stream id, frame. *)
Fixpoint deliveries (l : list Call) : list (VideoRenderCallback * Z * VideoFrame) :=
  match l with
  | [] => []
  | Callback_RenderFrame cb stream_id f :: rest => (cb, stream_id, f) :: deliveries rest
  | _ :: rest => deliveries rest
  end.

(** A call on the render buffer. *)
Definition is_buffer_call (c : Call) : bool :=
  match c with
  | Buffer_AddFrame _ | Buffer_FrameToRender | Buffer_TimeToNextFrameRelease
  | Buffer_SetRenderDelay _ | Buffer_ReleaseAllFrames => true
  | _ => false
  end.

(** A call on [deliver_buffer_event_]. *)
Definition is_event_call (c : Call) : bool :=
  match c with
  | Event_Set | Event_StartTimer _ _ | Event_StopTimer | Event_Wait _ => true
  | _ => false
  end.

End Model.


(** ** Derived forms *)

Section Derived.

Context {frame_class : VideoFrameClass}.
Context {buffer_class : VideoRenderFramesClass}.
Context {decl : ClassDeclaration}.

(** The fields after the rate statistics block of [RenderFrame], entered
    with fields [s] and time [now]: its assignments, in the order of the
    code. *)
Definition after_statistics (now : Z) (s : IncomingVideoStream) : IncomingVideoStream :=
  let s1 := set_num_frames_since_last_calculation_
              (wrap num_frames_bits (num_frames_since_last_calculation_ s + 1)) s in
  if now >=? last_rate_calculation_time_ms_ s + kFrameRatePeriodMs then
    set_last_rate_calculation_time_ms_ now
      (set_num_frames_since_last_calculation_ 0
         (set_incoming_rate_
            (uint32 (Z.quot (1000 * num_frames_since_last_calculation_ s1)
                            (now - last_rate_calculation_time_ms_ s)))
            s1))
  else s1.

(** Whether a thread handle is stored. *)
Definition thread_stored (s : IncomingVideoStream) : bool :=
  match incoming_render_thread_ s with
  | Some _ => true
  | None => false
  end.

(** What a dispatch of [video_frame] delivers, as the specification puts it:
    nothing for the empty sentinel; otherwise to the override callback if
    set, else to the primary callback if set, else nothing; always with the
    stream's own id. *)
Definition dispatch_rule (s : IncomingVideoStream)
    (video_frame : VideoFrame) : list (VideoRenderCallback * Z * VideoFrame) :=
  if IsZeroSize video_frame then []
  else
    match external_callback_ s, render_callback_ s with
    | Some override, _ => [(override, stream_id_ s, video_frame)]
    | None, Some primary => [(primary, stream_id_ s, video_frame)]
    | None, None => []
    end.

End Derived.

(** ** Observers of logs *)

Section Observers.

Context {frame_class : VideoFrameClass}.
Context {buffer_class : VideoRenderFramesClass}.

Definition CriticalSection_eqb (a b : CriticalSection) : bool :=
  match a, b with
  | stream_critsect_, stream_critsect_ => true
  | thread_critsect_, thread_critsect_ => true
  | buffer_critsect_, buffer_critsect_ => true
  | _, _ => false
  end.

(** The order in which the member functions nest the critical sections. *)
Definition CriticalSection_rank (c : CriticalSection) : Z :=
  match c with
  | stream_critsect_ => 0
  | thread_critsect_ => 1
  | buffer_critsect_ => 2
  end.

Definition holds (c : CriticalSection) (held : list CriticalSection) : bool :=
  existsb (CriticalSection_eqb c) held.

(** The critical sections the calling thread holds after a call, from those
    it held before, last entered first: the constructor of a [CritScope]
    enters one, its destructor leaves the last entered. *)
Definition held_after_call (c : Call) (held : list CriticalSection) :
    list CriticalSection :=
  match c with
  | Enter cs => cs :: held
  | Leave _ => tl held
  | _ => held
  end.

(** Each call of a sequence with the critical sections held when it is made. *)
Fixpoint with_held (held : list CriticalSection) (l : list Call) :
    list (Call * list CriticalSection) :=
  match l with
  | [] => []
  | c :: rest => (c, held) :: with_held (held_after_call c held) rest
  end.

(** The critical sections held at the end of a sequence of calls. *)
Fixpoint held_at_end (held : list CriticalSection) (l : list Call) :
    list CriticalSection :=
  match l with
  | [] => held
  | c :: rest => held_at_end (held_after_call c held) rest
  end.

(** Nesting: a section is entered only when no section of higher rank is
    held, and the section left is the last one entered. *)
Definition nesting_rule (e : Call * list CriticalSection) : bool :=
  match e with
  | (Enter cs, held) =>
      forallb (fun h => CriticalSection_rank h <=? CriticalSection_rank cs) held
  | (Leave cs, h :: _) => CriticalSection_eqb h cs
  | (Leave cs, []) => false
  | _ => true
  end.

(** Guards: the render buffer is called under [buffer_critsect_]; the
    callbacks are invoked and the thread handle is written under
    [thread_critsect_]. *)
Definition guard_rule (e : Call * list CriticalSection) : bool :=
  match e with
  | (Buffer_AddFrame _, held)
  | (Buffer_FrameToRender, held)
  | (Buffer_TimeToNextFrameRelease, held)
  | (Buffer_SetRenderDelay _, held)
  | (Buffer_ReleaseAllFrames, held) => holds buffer_critsect_ held
  | (Callback_RenderFrame _ _ _, held)
  | (Thread_new, held)
  | (Thread_Start _, held)
  | (Thread_SetPriority _, held)
  | (Thread_release, held) => holds thread_critsect_ held
  | _ => true
  end.

(** Calls that may block: a callback is not invoked under
    [buffer_critsect_], the thread is not joined under [thread_critsect_],
    and the wait on the event is made with no critical section held. *)
Definition blocking_rule (e : Call * list CriticalSection) : bool :=
  match e with
  | (Callback_RenderFrame _ _ _, held) => negb (holds buffer_critsect_ held)
  | (Thread_Stop _, held) => negb (holds thread_critsect_ held)
  | (Event_Wait _, []) => true
  | (Event_Wait _, _ :: _) => false
  | _ => true
  end.

(** The life of the presentation thread, as the calls on it show it. *)
Inductive ThreadPhase : Type :=
| NoThread
| Started (t : PlatformThread)
| Joined (t : PlatformThread).

(** Follows the calls on threads from phase [p]: a thread is started only
    when there is none, its priority is set and it is joined only once
    started, and it is deleted only once joined.  [None] when a call comes
    out of turn. *)
Fixpoint thread_lifecycle (p : ThreadPhase) (l : list Call) : option ThreadPhase :=
  match l with
  | [] => Some p
  | Thread_Start t :: rest =>
      match p with
      | NoThread => thread_lifecycle (Started t) rest
      | _ => None
      end
  | Thread_SetPriority t :: rest =>
      match p with
      | Started t' => if N.eqb t t' then thread_lifecycle p rest else None
      | _ => None
      end
  | Thread_Stop t :: rest =>
      match p with
      | Started t' => if N.eqb t t' then thread_lifecycle (Joined t) rest else None
      | _ => None
      end
  | Thread_delete t :: rest =>
      match p with
      | Joined t' => if N.eqb t t' then thread_lifecycle NoThread rest else None
      | _ => None
      end
  | _ :: rest => thread_lifecycle p rest
  end.

(** The phase the stored handle stands for. *)
Definition phase_of (s : IncomingVideoStream) : ThreadPhase :=
  match incoming_render_thread_ s with
  | Some t => Started t
  | None => NoThread
  end.

(** Every callback invocation of a log is made with [running_] set. *)
Definition callbacks_while_running (l : Log) : bool :=
  forallb (fun e : Call * IncomingVideoStream =>
             match fst e with
             | Callback_RenderFrame _ _ _ => running_ (snd e)
             | _ => true
             end) l.


(** Calls of [RenderFrame], one for each input: the stream id given, the
    frame, and the time the clock shows. *)
Definition render_frames (inputs : list (Z * VideoFrame * Z)) : list Operation :=
  map (fun x => Op_RenderFrame (fst (fst x)) (snd (fst x)) (snd x)) inputs.

(** The frames the buffer hands out over successive turns of the thread
    function on a stream that stores a thread, and the buffer left: a turn
    whose wait fails asks nothing; any other asks for the frame to render
    and then for the time to the next release. *)
Fixpoint frames_yielded (waits : list EventTypeWrapper) (b : VideoRenderFrames) :
    list VideoFrame * VideoRenderFrames :=
  match waits with
  | [] => ([], b)
  | w :: rest =>
      if EventTypeWrapper_eqb kEventError w then frames_yielded rest b
      else
        let popped := FrameToRender b in
        let queried := TimeToNextFrameRelease (snd popped) in
        let later := frames_yielded rest (snd queried) in
        (fst popped :: fst later, snd later)
  end.

(** The calls that leave the render buffer alone. *)
Definition leaves_buffer (op : Operation) : bool :=
  match op with
  | Op_SetRenderCallback _ | Op_SetExternalCallback _
  | Op_Start _ | Op_Stop | Op_IncomingRate => true
  | _ => false
  end.

(** The three fields of the rate statistics. *)
Definition statistics (s : IncomingVideoStream) : Z * Z * Z :=
  (incoming_rate_ s, last_rate_calculation_time_ms_ s,
   num_frames_since_last_calculation_ s).

End Observers.

(** ** A small instance, to run the model on concrete inputs *)

Module Fifo.

(** A frame is its payload size; the zero-size frame is [0]. *)
Definition Frame : Type := Z.

#[export] Instance frame_class : VideoFrameClass :=
  {| VideoFrame := Frame; IsZeroSize := fun f => f =? 0 |}.

(** A first-in first-out queue that reports its render delay as the time
    to the next release. *)
Record Buffer : Type := {
  queue : list Frame;
  render_delay_ms : Z
}.

Definition push (f : Frame) (b : Buffer) : Z * Buffer :=
  let q := queue b ++ [f] in
  (Z.of_nat (length q), {| queue := q; render_delay_ms := render_delay_ms b |}).

Definition pop (b : Buffer) : Frame * Buffer :=
  match queue b with
  | [] => (0, b)
  | f :: q => (f, {| queue := q; render_delay_ms := render_delay_ms b |})
  end.

#[export] Instance buffer_class : VideoRenderFramesClass :=
  {| VideoRenderFrames := Buffer;
     VideoRenderFrames_new := {| queue := []; render_delay_ms := 10 |};
     AddFrame := push;
     FrameToRender := pop;
     TimeToNextFrameRelease := fun b => (render_delay_ms b, b);
     SetRenderDelay := fun d b => (0, {| queue := queue b; render_delay_ms := d |});
     ReleaseAllFrames := fun b => (0, {| queue := []; render_delay_ms := render_delay_ms b |}) |}.

#[export] Instance decl : ClassDeclaration :=
  {| kEventStartupTimeMs := 10;
     kEventMaxWaitTimeMs := 100;
     kFrameRatePeriodMs := 1000;
     num_frames_bits := 16 |}.

Definition Stream : Type := IncomingVideoStream.

(** A stream in buffered mode that was never started. *)
Definition stopped : Stream := IncomingVideoStream_new 5 false.

(** The same stream with a render callback, started: thread [7] is stored. *)
Definition buffered_running : Stream :=
  {| stream_id_ := 5;
     disable_prerenderer_smoothing_ := false;
     incoming_render_thread_ := Some 7%N;
     running_ := true;
     external_callback_ := None;
     render_callback_ := Some 1%N;
     render_buffers_ := VideoRenderFrames_new;
     incoming_rate_ := 0;
     last_rate_calculation_time_ms_ := 0;
     num_frames_since_last_calculation_ := 0 |}.

(** A buffered stream whose render delay was set to 250 ms before it was
    started, holding one frame. *)
Definition buffered_slow : Stream :=
  {| stream_id_ := 5;
     disable_prerenderer_smoothing_ := false;
     incoming_render_thread_ := Some 7%N;
     running_ := true;
     external_callback_ := None;
     render_callback_ := Some 1%N;
     render_buffers_ := {| queue := [42]; render_delay_ms := 250 |};
     incoming_rate_ := 0;
     last_rate_calculation_time_ms_ := 5000;
     num_frames_since_last_calculation_ := 0 |}.

(** A stream in bypass mode with both callbacks, started, after a frame at
    time 5000 and three more within the second that follows: no thread. *)
Definition bypass_running : Stream :=
  {| stream_id_ := 5;
     disable_prerenderer_smoothing_ := true;
     incoming_render_thread_ := None;
     running_ := true;
     external_callback_ := Some 2%N;
     render_callback_ := Some 1%N;
     render_buffers_ := VideoRenderFrames_new;
     incoming_rate_ := 0;
     last_rate_calculation_time_ms_ := 5000;
     num_frames_since_last_calculation_ := 3 |}.

End Fifo.

(** * Properties *)

Section Properties.

Context {frame_class : VideoFrameClass}.
Context {buffer_class : VideoRenderFramesClass}.
Context {decl : ClassDeclaration}.

Local Abbreviation Stream := IncomingVideoStream.

(** Unfolds the monad and the small helpers built on it. *)
Ltac run_monad :=
  cbv [CritScope on_buffer release_incoming_render_thread_
       reset_incoming_render_thread_ discard bind gets modify call ret].

(** Case analysis on a condition the code tests, possibly more than once. *)
Ltac branch_on e :=
  let E := fresh "E" in
  destruct e eqn:E; cbn; rewrite ?E; cbn.

(** *** Stopped streams refuse frames *)

(** [RenderFrame] on a stream that is not running: the early return. *)
Lemma RenderFrame_stopped_log
    (s : Stream) (stream_id : Z) (video_frame : VideoFrame) (now : Z) :
  running_ s = false ->
  RenderFrame stream_id video_frame now s =
    (-1, s, [(Enter stream_critsect_, s); (Leave stream_critsect_, s)]).
Proof.
  intros Hstopped.
  unfold RenderFrame. run_monad.
  rewrite Hstopped. reflexivity.
Qed.

(** C2.  A call of [RenderFrame] on a stream that is not running returns
    [-1], invokes no callback and changes no field: the frame counter, the
    window start and the rate stay as they are, and the render buffer is not
    called.  The only calls made are entering and leaving the stream's
    critical section. *)
Theorem RenderFrame_not_running_fails
    (s : Stream) (stream_id : Z) (video_frame : VideoFrame) (now : Z) :
  running_ s = false ->
  let '(result, s', log) := RenderFrame stream_id video_frame now s in
  result = -1 /\
  s' = s /\
  num_frames_since_last_calculation_ s' = num_frames_since_last_calculation_ s /\
  last_rate_calculation_time_ms_ s' = last_rate_calculation_time_ms_ s /\
  incoming_rate_ s' = incoming_rate_ s /\
  render_buffers_ s' = render_buffers_ s /\
  log = [(Enter stream_critsect_, s); (Leave stream_critsect_, s)] /\
  deliveries (calls log) = [] /\
  existsb is_buffer_call (calls log) = false.
Proof.
  intros Hstopped.
  rewrite (RenderFrame_stopped_log s stream_id video_frame now Hstopped).
  repeat split.
Qed.

(** *** What Start and Stop leave behind *)

(** A [Start] that returns [0] leaves the stream running. *)
Lemma Start_success_runs (s : Stream) (fresh : option PlatformThread) :
  let '(result, s', _) := Start fresh s in
  result = 0 -> running_ s' = true.
Proof.
  unfold Start. run_monad.
  branch_on (running_ s); [ reflexivity | ].
  branch_on (disable_prerenderer_smoothing_ s); [ reflexivity | ].
  destruct fresh; branch_on (incoming_render_thread_ s);
    solve [ reflexivity | discriminate ].
Qed.

(** [Stop] always returns [0] and leaves the stream not running. *)
Lemma Stop_succeeds (s : Stream) :
  let '(result, s', _) := Stop s in
  result = 0 /\ running_ s' = false.
Proof.
  unfold Stop. run_monad.
  branch_on (running_ s); [ | split; reflexivity ].
  branch_on (incoming_render_thread_ s); split; reflexivity.
Qed.

(** *** Start and Stop when there is nothing to do *)

(** C4.  [Start] on a running stream and [Stop] on a stream that is not
    running return [0] and change no field; they only enter and leave the
    stream's critical section, so no thread is created and no timer armed.
    Hence a second [Start] after a successful one, and a second [Stop] after
    any [Stop], do nothing more. *)
Theorem Start_Stop_idempotent (s : Stream) :
  (forall fresh,
     running_ s = true ->
     Start fresh s =
       (0, s, [(Enter stream_critsect_, s); (Leave stream_critsect_, s)])) /\
  (running_ s = false ->
   Stop s = (0, s, [(Enter stream_critsect_, s); (Leave stream_critsect_, s)])) /\
  (forall fresh fresh',
     let '(result, s1, _) := Start fresh s in
     result = 0 ->
     Start fresh' s1 =
       (0, s1, [(Enter stream_critsect_, s1); (Leave stream_critsect_, s1)])) /\
  (let '(result, s1, _) := Stop s in
   result = 0 /\
   Stop s1 = (0, s1, [(Enter stream_critsect_, s1); (Leave stream_critsect_, s1)])).
Proof.
  assert (Hstart : forall (s0 : Stream) fresh,
            running_ s0 = true ->
            Start fresh s0 =
              (0, s0, [(Enter stream_critsect_, s0); (Leave stream_critsect_, s0)])).
  { intros s0 fresh Hrun. unfold Start. run_monad. rewrite Hrun. reflexivity. }
  assert (Hstop : forall s0 : Stream,
            running_ s0 = false ->
            Stop s0 =
              (0, s0, [(Enter stream_critsect_, s0); (Leave stream_critsect_, s0)])).
  { intros s0 Hrun. unfold Stop. run_monad. rewrite Hrun. reflexivity. }
  split; [ intros fresh; apply Hstart | ].
  split; [ apply Hstop | ].
  split.
  - intros fresh fresh'.
    pose proof (Start_success_runs s fresh) as Hruns.
    destruct (Start fresh s) as [[result s1] log].
    intros Hok. apply Hstart, Hruns, Hok.
  - pose proof (Stop_succeeds s) as Hstops.
    destruct (Stop s) as [[result s1] log].
    destruct Hstops as [Hok Hrun].
    split; [exact Hok | apply Hstop, Hrun].
Qed.

(** *** The render delay can only be set while stopped *)

(** C7.  [SetExpectedRenderDelay] on a running stream returns [-1] and leaves
    the render buffer alone: [SetRenderDelay] is not called and no field
    changes.  On a stream that is not running it calls the buffer's
    [SetRenderDelay] with the same delay, under the buffer's critical
    section, and returns what the buffer returns. *)
Theorem SetExpectedRenderDelay_gated_by_running (s : Stream) (delay_ms : Z) :
  let '(result, s', log) := SetExpectedRenderDelay delay_ms s in
  if running_ s then
    result = -1 /\
    s' = s /\
    log = [(Enter stream_critsect_, s); (Leave stream_critsect_, s)] /\
    existsb is_buffer_call (calls log) = false
  else
    result = fst (SetRenderDelay delay_ms (render_buffers_ s)) /\
    s' = set_render_buffers_ (snd (SetRenderDelay delay_ms (render_buffers_ s))) s /\
    calls log =
      [Enter stream_critsect_; Enter buffer_critsect_;
       Buffer_SetRenderDelay delay_ms;
       Leave buffer_critsect_; Leave stream_critsect_].
Proof.
  unfold SetExpectedRenderDelay. run_monad.
  destruct (running_ s); cbn; repeat split.
Qed.

(** *** A failed wait *)

(** The thread function when the wait fails: nothing but the wait. *)
Lemma Process_error_log (s : Stream) :
  IncomingVideoStreamProcess kEventError s =
    (true, s, [(Event_Wait kEventMaxWaitTimeMs, s)]).
Proof.
  unfold IncomingVideoStreamProcess. run_monad. reflexivity.
Qed.

(** C9.  When the wait on the wake primitive returns [kEventError], the
    thread function does nothing but the wait: the thread handle is not
    looked at, the buffer is not called, the timer is not armed, nothing is
    dispatched, no field changes; and it returns [true].  The presentation
    loop therefore goes on with its next turn. *)
Theorem Process_wait_error_continues (s : Stream) :
  IncomingVideoStreamProcess kEventError s =
    (true, s, [(Event_Wait kEventMaxWaitTimeMs, s)]) /\
  forall waits,
    presentation_loop (kEventError :: waits) s =
      let '(ended, s', log) := presentation_loop waits s in
      (ended, s', (Event_Wait kEventMaxWaitTimeMs, s) :: log).
Proof.
  split; [ apply Process_error_log | ].
  intros waits. cbn [presentation_loop].
  unfold IncomingVideoStreamThreadFun, bind at 1. rewrite Process_error_log.
  destruct (presentation_loop waits s) as [[ended s'] log]. reflexivity.
Qed.

(** *** Dispatch *)

(** [DeliverFrame] changes no field; between entering and leaving the
    thread's critical section it makes exactly the callback invocations of
    the dispatch rule. *)
Lemma DeliverFrame_log (s : Stream) (video_frame : VideoFrame) :
  DeliverFrame video_frame s =
    (tt, s,
     (Enter thread_critsect_, s)
     :: map (fun d => (Callback_RenderFrame (fst (fst d)) (snd (fst d)) (snd d), s))
            (dispatch_rule s video_frame)
     ++ [(Leave thread_critsect_, s)]).
Proof.
  unfold DeliverFrame, dispatch_rule. run_monad.
  destruct (IsZeroSize video_frame); cbn; [ reflexivity | ].
  destruct (external_callback_ s); cbn; [ reflexivity | ].
  destruct (render_callback_ s); reflexivity.
Qed.

Lemma deliveries_app (l1 l2 : list Call) :
  deliveries (l1 ++ l2) = deliveries l1 ++ deliveries l2.
Proof.
  induction l1 as [ | c l1 IH ]; cbn; [ reflexivity | ].
  destruct c; cbn; rewrite ?IH; reflexivity.
Qed.

Lemma calls_app (l1 l2 : Log) : calls (l1 ++ l2) = calls l1 ++ calls l2.
Proof. apply map_app. Qed.

Lemma deliveries_of_dispatch (s : Stream)
    (ds : list (VideoRenderCallback * Z * VideoFrame)) :
  deliveries
    (calls (map (fun d => (Callback_RenderFrame (fst (fst d)) (snd (fst d)) (snd d), s))
                ds)) = ds.
Proof.
  induction ds as [ | [[cb id] f] ds IH ]; cbn; [ reflexivity | ].
  unfold calls in IH. rewrite IH. reflexivity.
Qed.

Lemma DeliverFrame_deliveries (s : Stream) (video_frame : VideoFrame) :
  deliveries (calls (snd (DeliverFrame video_frame s))) =
    dispatch_rule s video_frame.
Proof.
  rewrite DeliverFrame_log. cbn [snd].
  change (deliveries
            (calls ([(Enter thread_critsect_, s)]
                    ++ map (fun d => (Callback_RenderFrame (fst (fst d))
                                        (snd (fst d)) (snd d), s))
                           (dispatch_rule s video_frame)
                    ++ [(Leave thread_critsect_, s)])) =
          dispatch_rule s video_frame).
  rewrite !calls_app, !deliveries_app, deliveries_of_dispatch.
  cbn. apply app_nil_r.
Qed.

(** *** RenderFrame on a running stream *)

Ltac reduce :=
  cbn -[Z.add Z.sub Z.mul Z.quot Z.div Z.modulo Z.pow
        Z.geb Z.gtb Z.leb Z.eqb wrap uint32 DeliverFrame].

(** In bypass mode: the statistics, then [DeliverFrame]. *)
Lemma RenderFrame_bypass_log
    (s : Stream) (stream_id : Z) (video_frame : VideoFrame) (now : Z) :
  running_ s = true ->
  disable_prerenderer_smoothing_ s = true ->
  RenderFrame stream_id video_frame now s =
    (0, after_statistics now s,
     (Enter stream_critsect_, s)
     :: (TickTime_MillisecondTimestamp,
         set_num_frames_since_last_calculation_
           (wrap num_frames_bits (num_frames_since_last_calculation_ s + 1)) s)
     :: snd (DeliverFrame video_frame (after_statistics now s))
     ++ [(Leave stream_critsect_, after_statistics now s)]).
Proof.
  intros Hrun Hbypass.
  unfold RenderFrame, after_statistics. run_monad. rewrite Hrun. reduce.
  destruct (now >=? last_rate_calculation_time_ms_ s + kFrameRatePeriodMs);
    reduce; rewrite Hbypass; rewrite DeliverFrame_log; reduce;
    rewrite app_nil_r; reflexivity.
Qed.

(** In buffered mode: the statistics, then the insertion and, when the
    buffer reports one frame, the signal. *)
Lemma RenderFrame_buffered_log
    (s : Stream) (stream_id : Z) (video_frame : VideoFrame) (now : Z) :
  running_ s = true ->
  disable_prerenderer_smoothing_ s = false ->
  let inserted := AddFrame video_frame (render_buffers_ s) in
  let s2 := after_statistics now s in
  let s3 := set_render_buffers_ (snd inserted) s2 in
  RenderFrame stream_id video_frame now s =
    (0, s3,
     [(Enter stream_critsect_, s);
      (TickTime_MillisecondTimestamp,
       set_num_frames_since_last_calculation_
         (wrap num_frames_bits (num_frames_since_last_calculation_ s + 1)) s);
      (Enter buffer_critsect_, s2);
      (Buffer_AddFrame video_frame, s2)]
     ++ (if fst inserted =? 1 then [(Event_Set, s3)] else [])
     ++ [(Leave buffer_critsect_, s3); (Leave stream_critsect_, s3)]).
Proof.
  intros Hrun Hbuffered.
  unfold RenderFrame, after_statistics. run_monad. rewrite Hrun. reduce.
  destruct (now >=? last_rate_calculation_time_ms_ s + kFrameRatePeriodMs);
    reduce; rewrite Hbuffered; reduce;
    destruct (fst (AddFrame video_frame (render_buffers_ s)) =? 1);
    reflexivity.
Qed.

(** *** The thread function on a live stream *)

(** One turn of the thread function when the wait did not fail and a thread
    is stored: the buffer is asked for the frame to render and for the time
    to the next release, the timer is armed, the frame goes to
    [DeliverFrame]. *)
Lemma Process_live_log (s : Stream) (t : PlatformThread) (wait_result : EventTypeWrapper) :
  wait_result <> kEventError ->
  incoming_render_thread_ s = Some t ->
  let popped := FrameToRender (render_buffers_ s) in
  let queried := TimeToNextFrameRelease (snd popped) in
  let s1 := set_render_buffers_ (snd popped) s in
  let s2 := set_render_buffers_ (snd queried) s1 in
  let wait_time := uint32 (fst queried) in
  let armed :=
    if wait_time >? kEventMaxWaitTimeMs then kEventMaxWaitTimeMs else wait_time in
  IncomingVideoStreamProcess wait_result s =
    (true, s2,
     [(Event_Wait kEventMaxWaitTimeMs, s);
      (Enter thread_critsect_, s);
      (Enter buffer_critsect_, s);
      (Buffer_FrameToRender, s);
      (Buffer_TimeToNextFrameRelease, s1);
      (Leave buffer_critsect_, s2);
      (Event_StartTimer false armed, s2)]
     ++ snd (DeliverFrame (fst popped) s2)
     ++ [(Leave thread_critsect_, s2)]).
Proof.
  intros Hwait Hthread.
  unfold IncomingVideoStreamProcess. run_monad.
  replace (EventTypeWrapper_eqb kEventError wait_result) with false
    by (destruct wait_result; [ reflexivity | contradiction | reflexivity ]).
  reduce. rewrite Hthread. reduce.
  rewrite DeliverFrame_log. reduce. rewrite app_nil_r. reflexivity.
Qed.

(** One turn of the thread function when the wait did not fail and no thread
    is stored: it returns [false] at once. *)
Lemma Process_terminating_log (s : Stream) (wait_result : EventTypeWrapper) :
  wait_result <> kEventError ->
  incoming_render_thread_ s = None ->
  IncomingVideoStreamProcess wait_result s =
    (false, s,
     [(Event_Wait kEventMaxWaitTimeMs, s);
      (Enter thread_critsect_, s);
      (Leave thread_critsect_, s)]).
Proof.
  intros Hwait Hthread.
  unfold IncomingVideoStreamProcess. run_monad.
  replace (EventTypeWrapper_eqb kEventError wait_result) with false
    by (destruct wait_result; [ reflexivity | contradiction | reflexivity ]).
  reduce. rewrite Hthread. reflexivity.
Qed.

(** C3.  A call of [RenderFrame] on a running stream in buffered mode
    inserts the frame with the buffer's [AddFrame], under the buffer's
    critical section; it signals the wake primitive, once, exactly when
    [AddFrame] reports one frame after the insertion; it invokes no callback
    and returns [0]. *)
Theorem RenderFrame_buffered_inserts_and_signals
    (s : Stream) (stream_id : Z) (video_frame : VideoFrame) (now : Z) :
  running_ s = true ->
  disable_prerenderer_smoothing_ s = false ->
  let inserted := AddFrame video_frame (render_buffers_ s) in
  let '(result, s', log) := RenderFrame stream_id video_frame now s in
  result = 0 /\
  render_buffers_ s' = snd inserted /\
  calls log =
    [Enter stream_critsect_; TickTime_MillisecondTimestamp;
     Enter buffer_critsect_; Buffer_AddFrame video_frame]
    ++ (if fst inserted =? 1 then [Event_Set] else [])
    ++ [Leave buffer_critsect_; Leave stream_critsect_] /\
  (In Event_Set (calls log) <-> fst inserted = 1) /\
  deliveries (calls log) = [].
Proof.
  intros Hrun Hbuffered inserted.
  rewrite (RenderFrame_buffered_log s stream_id video_frame now Hrun Hbuffered).
  fold inserted.
  split; [ reflexivity | ].
  split; [ reflexivity | ].
  destruct (Z.eqb_spec (fst inserted) 1) as [Hone | Hmore]; cbn.
  - repeat split; auto 10.
  - repeat split; try reflexivity.
    + intros Hin.
      repeat (destruct Hin as [Hin | Hin]; [ discriminate Hin | ]).
      destruct Hin.
    + intros Hone. contradiction.
Qed.

(** C5.  Every dispatch goes through [DeliverFrame], and [DeliverFrame]
    follows the dispatch rule: a zero-size frame reaches no callback, and
    this is not reported as a failure; otherwise the external (override)
    callback, if set, is the only one invoked; else the render (primary)
    callback, if set; else none.  [DeliverFrame] changes no field.  The
    dispatch of [RenderFrame] in bypass mode and that of the thread function,
    of the frame the buffer hands out, are of this kind. *)
Theorem dispatch_follows_rule (s : Stream) (video_frame : VideoFrame) :
  (let '(_, s', log) := DeliverFrame video_frame s in
   s' = s /\
   deliveries (calls log) = dispatch_rule s video_frame /\
   deliveries (calls log) =
     if IsZeroSize video_frame then []
     else
       match external_callback_ s, render_callback_ s with
       | Some override, _ => [(override, stream_id_ s, video_frame)]
       | None, Some primary => [(primary, stream_id_ s, video_frame)]
       | None, None => []
       end) /\
  (forall stream_id now,
     running_ s = true ->
     disable_prerenderer_smoothing_ s = true ->
     let '(result, _, log) := RenderFrame stream_id video_frame now s in
     result = 0 /\
     deliveries (calls log) = dispatch_rule s video_frame) /\
  (forall wait_result t,
     wait_result <> kEventError ->
     incoming_render_thread_ s = Some t ->
     let '(continue, _, log) := IncomingVideoStreamProcess wait_result s in
     continue = true /\
     deliveries (calls log) =
       dispatch_rule s (fst (FrameToRender (render_buffers_ s)))).
Proof.
  split; [ | split ].
  - pose proof (DeliverFrame_deliveries s video_frame) as H.
    rewrite DeliverFrame_log in *.
    split; [ reflexivity | split; exact H ].
  - intros stream_id now Hrun Hbypass.
    rewrite (RenderFrame_bypass_log s stream_id video_frame now Hrun Hbypass).
    split; [ reflexivity | ].
    match goal with
    | |- deliveries (calls (?a :: ?b :: ?l ++ ?r)) = _ =>
        change (deliveries (calls ([a; b] ++ l ++ r)) = dispatch_rule s video_frame)
    end.
    rewrite !calls_app, !deliveries_app, DeliverFrame_deliveries.
    cbn [calls map fst deliveries app]. rewrite app_nil_r.
    unfold dispatch_rule, after_statistics.
    destruct (now >=? last_rate_calculation_time_ms_ s + kFrameRatePeriodMs);
      reflexivity.
  - intros wait_result t Hwait Hthread.
    rewrite (Process_live_log s t wait_result Hwait Hthread).
    split; [ reflexivity | ].
    rewrite !calls_app, !deliveries_app, DeliverFrame_deliveries.
    cbn [calls map fst deliveries app]. rewrite app_nil_r.
    reflexivity.
Qed.

(** *** Arming the timer *)

(** C8, as the code has it.  In a turn of the thread function whose wait
    did not fail and that finds a thread stored, so that it does not end the
    loop, the frame to render is popped and the time to the next release
    queried, both under the buffer's critical section; then the one-shot
    timer is armed, once, with that time clamped to [kEventMaxWaitTimeMs]:
    the time itself when it is at most the ceiling, the ceiling otherwise;
    only then is the frame dispatched.  The turn returns [true]. *)
Theorem Process_rearms_timer_clamped
    (s : Stream) (t : PlatformThread) (wait_result : EventTypeWrapper) :
  wait_result <> kEventError ->
  incoming_render_thread_ s = Some t ->
  let popped := FrameToRender (render_buffers_ s) in
  let queried := TimeToNextFrameRelease (snd popped) in
  let delay := uint32 (fst queried) in
  let armed :=
    if delay <=? kEventMaxWaitTimeMs then delay else kEventMaxWaitTimeMs in
  let '(continue, s', log) := IncomingVideoStreamProcess wait_result s in
  continue = true /\
  s' = set_render_buffers_ (snd queried) s /\
  (let dispatch := snd (DeliverFrame (fst popped) s') in
   calls log =
     [Event_Wait kEventMaxWaitTimeMs;
      Enter thread_critsect_;
      Enter buffer_critsect_;
      Buffer_FrameToRender;
      Buffer_TimeToNextFrameRelease;
      Leave buffer_critsect_;
      Event_StartTimer false armed]
     ++ calls dispatch ++ [Leave thread_critsect_] /\
   deliveries (calls dispatch) = deliveries (calls log) /\
   existsb is_event_call (calls dispatch) = false) /\
  (0 <= fst queried < 2 ^ 32 -> delay = fst queried).
Proof.
  intros Hwait Hthread popped queried delay armed.
  rewrite (Process_live_log s t wait_result Hwait Hthread).
  fold popped queried delay.
  replace (if delay >? kEventMaxWaitTimeMs then kEventMaxWaitTimeMs else delay)
    with armed
    by (unfold armed; rewrite Z.gtb_ltb, Z.leb_antisym;
        destruct (kEventMaxWaitTimeMs <? delay); reflexivity).
  split; [ reflexivity | ].
  split; [ reflexivity | ].
  split.
  - cbv zeta. split; [ | split ].
    + rewrite !calls_app. reflexivity.
    + rewrite !calls_app, !deliveries_app. cbn [calls map fst deliveries app].
      rewrite app_nil_r. reflexivity.
    + rewrite DeliverFrame_log. cbn [snd].
      unfold dispatch_rule.
      destruct (IsZeroSize (fst popped)); [ reflexivity | ].
      destruct (external_callback_ _); [ reflexivity | ].
      destruct (render_callback_ _); reflexivity.
  - intros Hrange. unfold delay, uint32, wrap.
    apply Z.mod_small. exact Hrange.
Qed.

(** *** When a thread is stored *)

(** Splits on the conditions a member function tests. *)
Ltac branches :=
  repeat match goal with
         | |- context [if ?c then _ else _] => destruct c eqn:?; reduce
         | |- context [match ?c with Some _ => _ | None => _ end] =>
             destruct c eqn:?; reduce
         end.

(** No call and no turn of the thread function changes the mode, and each
    keeps this: a thread is stored exactly when the stream is running in
    buffered mode. *)
Lemma perform_keeps_thread_stored (op : Operation) (s : Stream) :
  thread_stored s = running_ s && negb (disable_prerenderer_smoothing_ s) ->
  let '(_, s', _) := perform op s in
  disable_prerenderer_smoothing_ s' = disable_prerenderer_smoothing_ s /\
  thread_stored s' = running_ s' && negb (disable_prerenderer_smoothing_ s').
Proof.
  unfold thread_stored.
  destruct s as [id mode thread running ext prim buffers rate last count].
  cbn [incoming_render_thread_ running_ disable_prerenderer_smoothing_].
  intros Hinv.
  destruct op as [ sid f now | cb | delay | cb | fresh | | | | w ];
    cbn [perform];
    unfold RenderFrame, SetRenderCallback, SetExpectedRenderDelay,
      SetExternalCallback, Start, Stop, Reset, IncomingRate,
      IncomingVideoStreamProcess, DeliverFrame;
    run_monad; reduce;
    destruct running, mode, thread; try discriminate Hinv; reduce;
    branches; split; reflexivity.
Qed.

Lemma perform_all_keeps_thread_stored (ops : list Operation) (s : Stream) :
  thread_stored s = running_ s && negb (disable_prerenderer_smoothing_ s) ->
  let '(_, s', _) := perform_all ops s in
  disable_prerenderer_smoothing_ s' = disable_prerenderer_smoothing_ s /\
  thread_stored s' = running_ s' && negb (disable_prerenderer_smoothing_ s').
Proof.
  revert s. induction ops as [ | op ops IH ]; intros s Hinv; cbn [perform_all].
  - unfold ret. split; [ reflexivity | exact Hinv ].
  - unfold bind.
    pose proof (perform_keeps_thread_stored op s Hinv) as Hop.
    destruct (perform op s) as [[[] s1] log1].
    destruct Hop as [Hmode1 Hinv1].
    pose proof (IH s1 Hinv1) as Hrest.
    destruct (perform_all ops s1) as [[[] s2] log2].
    destruct Hrest as [Hmode2 Hinv2].
    split; [ congruence | exact Hinv2 ].
Qed.

(** On every stream reached from the constructor, the mode is the one given
    to the constructor, and a thread is stored exactly when the stream is
    running in buffered mode.  In particular [Start], which gets past its
    first test only on a stream that is not running, finds no thread stored:
    its assertion holds. *)
Lemma thread_stored_iff_buffered_running
    (stream_id : Z) (disable_prerenderer_smoothing : bool) (ops : list Operation) :
  let '(_, s, _) :=
    perform_all ops
      (IncomingVideoStream_new stream_id disable_prerenderer_smoothing) in
  disable_prerenderer_smoothing_ s = disable_prerenderer_smoothing /\
  thread_stored s = running_ s && negb disable_prerenderer_smoothing.
Proof.
  pose proof (perform_all_keeps_thread_stored ops
                (IncomingVideoStream_new stream_id disable_prerenderer_smoothing)
                eq_refl) as H.
  destruct (perform_all ops _) as [[[] s] log].
  destruct H as [Hmode Hinv]. cbn in Hmode.
  split; [ exact Hmode | rewrite Hinv, Hmode; reflexivity ].
Qed.

(** *** Shutdown *)

(** C1, as the code has it.  [Stop] on a running stream that stores a thread
    handle: under the thread's critical section the handle is released, so
    that the stored handle is null, and only then the timer is stopped and
    the wake primitive signalled, once; after leaving that critical section
    the thread is joined and deleted; then [running_] is cleared and [0]
    returned.  The thread function, on any wake on which it finds the stored
    handle null (as it is from the release on), returns [false] without
    touching buffer, timer or callbacks, and the presentation loop ends.
    [Stop] on a running stream that stores no handle releases, stops,
    signals and joins nothing: it clears [running_] and returns [0].  On the
    streams reached from the constructor, a running stream stores a handle
    in buffered mode and none in bypass mode. *)
Theorem Stop_shutdown_protocol (s : Stream) :
  running_ s = true ->
  let released := set_incoming_render_thread_ None s in
  let stopped := set_running_ false released in
  (forall t,
     incoming_render_thread_ s = Some t ->
     Stop s =
       (0, stopped,
        [(Enter stream_critsect_, s);
         (Enter thread_critsect_, s);
         (Thread_release, released);
         (Event_StopTimer, released);
         (Event_Set, released);
         (Leave thread_critsect_, released);
         (Thread_Stop t, released);
         (Thread_delete t, released);
         (Leave stream_critsect_, stopped)])) /\
  incoming_render_thread_ released = None /\
  running_ released = true /\
  incoming_render_thread_ stopped = None /\
  running_ stopped = false /\
  (forall (woken : Stream) wait_result waits,
     wait_result <> kEventError ->
     incoming_render_thread_ woken = None ->
     IncomingVideoStreamProcess wait_result woken =
       (false, woken,
        [(Event_Wait kEventMaxWaitTimeMs, woken);
         (Enter thread_critsect_, woken);
         (Leave thread_critsect_, woken)]) /\
     presentation_loop (wait_result :: waits) woken =
       (true, woken,
        [(Event_Wait kEventMaxWaitTimeMs, woken);
         (Enter thread_critsect_, woken);
         (Leave thread_critsect_, woken)])) /\
  (incoming_render_thread_ s = None ->
   Stop s =
     (0, set_running_ false s,
      [(Enter stream_critsect_, s);
       (Enter thread_critsect_, s);
       (Leave thread_critsect_, s);
       (Leave stream_critsect_, set_running_ false s)])) /\
  (forall stream_id disable_prerenderer_smoothing ops,
     let '(_, reached, _) :=
       perform_all ops
         (IncomingVideoStream_new stream_id disable_prerenderer_smoothing) in
     running_ reached = true ->
     thread_stored reached = negb disable_prerenderer_smoothing).
Proof.
  intros Hrun released stopped.
  split; [ | split; [ reflexivity | ] ].
  2: split; [ exact Hrun | ].
  2: split; [ reflexivity | ].
  2: split; [ reflexivity | ].
  2: split; [ | split ].
  - intros t Hthread.
    unfold Stop. run_monad. rewrite Hrun. reduce. rewrite Hthread. reduce.
    rewrite Hthread. reflexivity.
  - intros woken wait_result waits Hwait Hnull.
    pose proof (Process_terminating_log woken wait_result Hwait Hnull) as H.
    split; [ exact H | ].
    cbn [presentation_loop].
    unfold IncomingVideoStreamThreadFun, bind, ret. rewrite H. reflexivity.
  - intros Hthread.
    unfold Stop. run_monad. rewrite Hrun. reduce. rewrite Hthread. reflexivity.
  - intros stream_id disable ops.
    pose proof (thread_stored_iff_buffered_running stream_id disable ops) as H.
    destruct (perform_all ops _) as [[[] reached] log].
    destruct H as [_ Hstored]. intros Hreached.
    rewrite Hstored, Hreached. reflexivity.
Qed.

(** *** The rate estimator *)

(** The quotient of the rate is taken on non-negative numbers and fits a
    [uint32_t] when the counter is narrower than [int]. *)
Lemma rate_fits_uint32 (count elapsed : Z) :
  0 < num_frames_bits <= 16 ->
  0 < elapsed ->
  uint32 (Z.quot (1000 * wrap num_frames_bits count) elapsed) =
    1000 * wrap num_frames_bits count / elapsed.
Proof.
  intros Hbits Helapsed.
  assert (Hcount : 0 <= wrap num_frames_bits count < 2 ^ 16).
  { unfold wrap.
    assert (0 < 2 ^ num_frames_bits) by (apply Z.pow_pos_nonneg; lia).
    assert (2 ^ num_frames_bits <= 2 ^ 16) by (apply Z.pow_le_mono_r; lia).
    pose proof (Z.mod_pos_bound count (2 ^ num_frames_bits)). lia. }
  rewrite Z.quot_div_nonneg by lia.
  unfold uint32, wrap at 1. apply Z.mod_small.
  split.
  - apply Z.div_pos; lia.
  - apply Z.div_lt_upper_bound; [ lia | ].
    change (2 ^ 16) with 65536 in Hcount. change (2 ^ 32) with 4294967296. nia.
Qed.

(** C6.  On every call of [RenderFrame] on a running stream, in either
    mode, the frame counter is incremented (in its unsigned type).  Then, if
    the time read has reached the window start plus [kFrameRatePeriodMs],
    the rate becomes [1000 * counter / (now - window start)], the counter
    becomes zero and the window starts at the time read; if it has not, the
    rate and the window start are as before and the counter keeps the
    increment.  [IncomingRate] returns the stored rate, changing nothing. *)
Theorem RenderFrame_rate_estimator
    (s : Stream) (stream_id : Z) (video_frame : VideoFrame) (now : Z) :
  0 < kFrameRatePeriodMs ->
  0 < num_frames_bits <= 16 ->
  running_ s = true ->
  let counter := wrap num_frames_bits (num_frames_since_last_calculation_ s + 1) in
  let window_start := last_rate_calculation_time_ms_ s in
  let '(result, s', _) := RenderFrame stream_id video_frame now s in
  result = 0 /\
  (if now >=? window_start + kFrameRatePeriodMs then
     incoming_rate_ s' = 1000 * counter / (now - window_start) /\
     num_frames_since_last_calculation_ s' = 0 /\
     last_rate_calculation_time_ms_ s' = now
   else
     incoming_rate_ s' = incoming_rate_ s /\
     num_frames_since_last_calculation_ s' = counter /\
     last_rate_calculation_time_ms_ s' = window_start) /\
  (0 <= num_frames_since_last_calculation_ s < 2 ^ num_frames_bits - 1 ->
   counter = num_frames_since_last_calculation_ s + 1) /\
  IncomingRate s' =
    (incoming_rate_ s', s',
     [(Enter stream_critsect_, s'); (Leave stream_critsect_, s')]).
Proof.
  intros Hperiod Hbits Hrun counter window_start.
  assert (Hstats :
    if now >=? window_start + kFrameRatePeriodMs then
      incoming_rate_ (after_statistics now s) =
        1000 * counter / (now - window_start) /\
      num_frames_since_last_calculation_ (after_statistics now s) = 0 /\
      last_rate_calculation_time_ms_ (after_statistics now s) = now
    else
      incoming_rate_ (after_statistics now s) = incoming_rate_ s /\
      num_frames_since_last_calculation_ (after_statistics now s) = counter /\
      last_rate_calculation_time_ms_ (after_statistics now s) = window_start).
  { unfold after_statistics. fold window_start.
    destruct (Z.geb_spec now (window_start + kFrameRatePeriodMs)) as [Hreached | Hnot];
      reduce; [ | repeat split ].
    split; [ | split; reflexivity ].
    apply rate_fits_uint32; [ exact Hbits | lia ]. }
  assert (Hcounter :
    0 <= num_frames_since_last_calculation_ s < 2 ^ num_frames_bits - 1 ->
    counter = num_frames_since_last_calculation_ s + 1).
  { intros Hroom. unfold counter, wrap. apply Z.mod_small. lia. }
  destruct (disable_prerenderer_smoothing_ s) eqn:Hmode.
  - rewrite (RenderFrame_bypass_log s stream_id video_frame now Hrun Hmode).
    split; [ reflexivity | ].
    split; [ exact Hstats | ].
    split; [ exact Hcounter | reflexivity ].
  - pose proof (RenderFrame_buffered_log s stream_id video_frame now Hrun Hmode) as Hlog.
    cbv zeta in Hlog. rewrite Hlog.
    split; [ reflexivity | ].
    split; [ exact Hstats | ].
    split; [ exact Hcounter | reflexivity ].
Qed.

(** *** The stream id *)

(** The deliveries of a log all carry the id [id]. *)
Local Abbreviation all_with_id id log :=
  (Forall (fun d : VideoRenderCallback * Z * VideoFrame => snd (fst d) = id)
          (deliveries (calls log))).

(** Whatever [DeliverFrame] hands to a callback, it hands with [stream_id_]. *)
Lemma dispatch_rule_own_id (s : Stream) (video_frame : VideoFrame) :
  Forall (fun d : VideoRenderCallback * Z * VideoFrame => snd (fst d) = stream_id_ s)
         (dispatch_rule s video_frame).
Proof.
  unfold dispatch_rule.
  destruct (IsZeroSize video_frame), (external_callback_ s), (render_callback_ s);
    repeat constructor.
Qed.

(** No call from outside and no turn of the thread function changes
    [stream_id_], and each hands [stream_id_] to the callbacks it invokes. *)
Lemma perform_keeps_id (op : Operation) (s : Stream) :
  let '(_, s', log) := perform op s in
  stream_id_ s' = stream_id_ s /\ all_with_id (stream_id_ s) log.
Proof.
  destruct op as [ id f now | cb | delay | cb | fresh | | | | w ]; cbn [perform].
  - (* RenderFrame *)
    destruct (running_ s) eqn:Hrun.
    + destruct (disable_prerenderer_smoothing_ s) eqn:Hmode.
      * unfold discard, bind, ret.
        rewrite (RenderFrame_bypass_log s id f now Hrun Hmode).
        split; [ unfold after_statistics; branches; reflexivity | ].
        match goal with
        | |- Forall _ (deliveries (calls ((?a :: ?b :: ?l ++ ?r) ++ []))) =>
            change (Forall (fun d : VideoRenderCallback * Z * VideoFrame =>
                              snd (fst d) = stream_id_ s)
                           (deliveries (calls (([a; b] ++ l ++ r) ++ []))))
        end.
        rewrite !calls_app, !deliveries_app, DeliverFrame_deliveries.
        cbn [calls map fst deliveries app]. rewrite !app_nil_r.
        replace (stream_id_ s) with (stream_id_ (after_statistics now s))
          by (unfold after_statistics; branches; reflexivity).
        apply dispatch_rule_own_id.
      * unfold discard, bind, ret.
        pose proof (RenderFrame_buffered_log s id f now Hrun Hmode) as Hlog.
        cbv zeta in Hlog. rewrite Hlog.
        split; [ unfold after_statistics; branches; reflexivity | ].
        rewrite !calls_app, !deliveries_app.
        destruct (fst (AddFrame f (render_buffers_ s)) =? 1); constructor.
    + unfold discard, bind, ret.
      rewrite (RenderFrame_stopped_log s id f now Hrun).
      split; [ reflexivity | constructor ].
  - unfold SetRenderCallback. run_monad. split; [ reflexivity | constructor ].
  - unfold SetExpectedRenderDelay. run_monad. branches;
      (split; [ reflexivity | constructor ]).
  - unfold SetExternalCallback. run_monad. split; [ reflexivity | constructor ].
  - unfold Start. run_monad. branches; (split; [ reflexivity | constructor ]).
  - unfold Stop. run_monad. branches; (split; [ reflexivity | constructor ]).
  - unfold Reset. run_monad. split; [ reflexivity | constructor ].
  - unfold IncomingRate. run_monad. split; [ reflexivity | constructor ].
  - (* the thread function *)
    unfold discard, bind, ret.
    destruct (EventTypeWrapper_eqb kEventError w) eqn:Hw.
    + destruct w; try discriminate Hw.
      rewrite Process_error_log.
      split; [ reflexivity | constructor ].
    + assert (Hwait : w <> kEventError) by (intros ->; discriminate Hw).
      destruct (incoming_render_thread_ s) as [t | ] eqn:Hthread.
      * pose proof (Process_live_log s t w Hwait Hthread) as Hlog.
        cbv zeta in Hlog. rewrite Hlog.
        split; [ reflexivity | ].
        rewrite !calls_app, !deliveries_app, DeliverFrame_deliveries.
        cbn [calls map fst deliveries app]. rewrite !app_nil_r.
        apply (dispatch_rule_own_id
                 (set_render_buffers_ _ (set_render_buffers_ _ s))).
      * rewrite (Process_terminating_log s w Hwait Hthread).
        split; [ reflexivity | constructor ].
Qed.

(** The same along any sequence of calls and turns. *)
Lemma perform_all_keeps_id (ops : list Operation) (s : Stream) :
  let '(_, s', log) := perform_all ops s in
  stream_id_ s' = stream_id_ s /\ all_with_id (stream_id_ s) log.
Proof.
  revert s. induction ops as [ | op ops IH ]; intros s; cbn [perform_all].
  - unfold ret. split; [ reflexivity | constructor ].
  - unfold bind.
    pose proof (perform_keeps_id op s) as Hop.
    destruct (perform op s) as [[[] s1] log1].
    pose proof (IH s1) as Hrest.
    destruct (perform_all ops s1) as [[[] s2] log2].
    destruct Hop as [Hid1 Hlog1], Hrest as [Hid2 Hlog2].
    split; [ congruence | ].
    rewrite calls_app, deliveries_app. apply Forall_app.
    split; [ exact Hlog1 | rewrite <- Hid1; exact Hlog2 ].
Qed.

(** C10.  [RenderFrame] does not use its [stream_id] argument: two calls
    that differ only in it behave alike and return alike.  Along any
    sequence of calls on a stream built with id [stream_id], whatever ids
    [RenderFrame] is given, every callback invocation carries [stream_id],
    and [StreamId] returns [stream_id]. *)
Theorem stream_id_fixed_at_construction :
  (forall (s : Stream) (id1 id2 : Z) (video_frame : VideoFrame) (now : Z),
     RenderFrame id1 video_frame now s = RenderFrame id2 video_frame now s) /\
  (forall (stream_id : Z) (disable_prerenderer_smoothing : bool)
          (ops : list Operation),
     let '(_, s', log) :=
       perform_all ops
         (IncomingVideoStream_new stream_id disable_prerenderer_smoothing) in
     StreamId s' = stream_id /\
     Forall (fun d : VideoRenderCallback * Z * VideoFrame => snd (fst d) = stream_id)
            (deliveries (calls log))).
Proof.
  split; [ reflexivity | ].
  intros stream_id disable ops.
  apply (perform_all_keeps_id ops (IncomingVideoStream_new stream_id disable)).
Qed.

(** * Further properties *)

(** Unfolds every member function down to the monad. *)
Ltac run_member_functions :=
  cbn [perform];
  unfold RenderFrame, SetRenderCallback, SetExpectedRenderDelay,
    SetExternalCallback, Start, Stop, Reset, IncomingRate,
    IncomingVideoStreamProcess, DeliverFrame;
  run_monad; reduce.

Ltac reduce_in H :=
  cbn -[Z.add Z.sub Z.mul Z.quot Z.div Z.modulo Z.pow
        Z.geb Z.gtb Z.leb Z.eqb wrap uint32 DeliverFrame] in H.

(** *** Critical sections *)

(** X4.  In every call from outside and every turn of the thread function,
    on any stream, the critical sections are properly nested: a section is
    entered only while no section later in the order stream, thread, buffer
    is held, the section left is always the last one entered, and at the
    return none is held, on the early returns too. *)
Theorem critical_sections_nested (op : Operation) (s : Stream) :
  let '(_, _, log) := perform op s in
  forallb nesting_rule (with_held [] (calls log)) = true /\
  held_at_end [] (calls log) = [].
Proof.
  destruct op as [ id f now | cb | delay | cb | fresh | | | | w ];
    run_member_functions; branches; split; reflexivity.
Qed.

(** X5.  In every call from outside and every turn of the thread function,
    on any stream, the render buffer is only called with the buffer's
    critical section held, and the callbacks are only invoked, and the
    thread handle only created, started or released, with the thread's
    critical section held. *)
Theorem shared_state_guarded (op : Operation) (s : Stream) :
  let '(_, _, log) := perform op s in
  forallb guard_rule (with_held [] (calls log)) = true.
Proof.
  destruct op as [ id f now | cb | delay | cb | fresh | | | | w ];
    run_member_functions; branches; reflexivity.
Qed.

(** X6.  In every call from outside and every turn of the thread function,
    on any stream, no callback is invoked while the buffer's critical
    section is held, the thread is never joined while the thread's critical
    section is held, and the wait on the wake primitive is made with no
    critical section held. *)
Theorem blocking_calls_outside_critical_sections (op : Operation) (s : Stream) :
  let '(_, _, log) := perform op s in
  forallb blocking_rule (with_held [] (calls log)) = true.
Proof.
  destruct op as [ id f now | cb | delay | cb | fresh | | | | w ];
    run_member_functions; branches; reflexivity.
Qed.

(** *** The life of the presentation thread *)

Lemma thread_lifecycle_app (p : ThreadPhase) (l1 l2 : list Call) :
  thread_lifecycle p (l1 ++ l2) =
    match thread_lifecycle p l1 with
    | Some p' => thread_lifecycle p' l2
    | None => None
    end.
Proof.
  revert p. induction l1 as [ | c l1 IH ]; intros p; [ reflexivity | ].
  destruct c; cbn [app thread_lifecycle]; try apply IH;
    destruct p; try reflexivity; try apply IH;
    match goal with
    | |- context [N.eqb ?a ?b] => destruct (N.eqb a b); [ apply IH | reflexivity ]
    end.
Qed.

(** Where a thread is stored exactly on a running buffered stream, one call
    or turn moves the thread from the phase of the handle stored before to
    the phase of the handle stored after, with every call on it in turn. *)
Lemma perform_follows_lifecycle (op : Operation) (s : Stream) :
  thread_stored s = running_ s && negb (disable_prerenderer_smoothing_ s) ->
  let '(_, s', log) := perform op s in
  thread_lifecycle (phase_of s) (calls log) = Some (phase_of s').
Proof.
  unfold thread_stored, phase_of.
  destruct s as [id mode thread running ext prim buffers rate last count].
  cbn [incoming_render_thread_ running_ disable_prerenderer_smoothing_].
  intros Hinv.
  destruct running, mode, thread; try discriminate Hinv;
    destruct op as [ sid f now | cb | delay | cb | [ fresh | ] | | | | w ];
    run_member_functions; rewrite ?N.eqb_refl; branches; rewrite ?N.eqb_refl;
    reflexivity.
Qed.

(** X7.  Along any sequence of calls and turns on a stream from its
    constructor, the calls on the presentation thread come in turn: a thread
    is started only when none is alive, it is joined only once started and
    deleted only once joined, and the thread alive at the end is the one
    whose handle is stored.  The destructor then returns [0] and leaves no
    thread alive, no handle stored and the stream not running. *)
Theorem thread_started_joined_deleted_in_turn
    (stream_id : Z) (disable_prerenderer_smoothing : bool) (ops : list Operation) :
  let '(_, s, log) :=
    perform_all ops
      (IncomingVideoStream_new stream_id disable_prerenderer_smoothing) in
  thread_lifecycle NoThread (calls log) = Some (phase_of s) /\
  let '(result, s_end, log_end) := IncomingVideoStream_delete s in
  result = 0 /\
  thread_lifecycle NoThread (calls (log ++ log_end)) = Some NoThread /\
  incoming_render_thread_ s_end = None /\
  running_ s_end = false.
Proof.
  assert (Hall : forall (ops0 : list Operation) (s0 : Stream),
            thread_stored s0 = running_ s0 && negb (disable_prerenderer_smoothing_ s0) ->
            let '(_, s1, log) := perform_all ops0 s0 in
            thread_lifecycle (phase_of s0) (calls log) = Some (phase_of s1)).
  { induction ops0 as [ | op ops0 IH ]; intros s0 Hinv; cbn [perform_all].
    - reflexivity.
    - unfold bind.
      pose proof (perform_follows_lifecycle op s0 Hinv) as Hop.
      pose proof (perform_keeps_thread_stored op s0 Hinv) as Hkeep.
      destruct (perform op s0) as [[[] s1] log1].
      destruct Hkeep as [_ Hinv1].
      pose proof (IH s1 Hinv1) as Hrest.
      destruct (perform_all ops0 s1) as [[[] s2] log2].
      rewrite calls_app, thread_lifecycle_app, Hop. exact Hrest. }
  pose proof (Hall ops (IncomingVideoStream_new stream_id disable_prerenderer_smoothing)
                eq_refl) as Hlife.
  change (phase_of (IncomingVideoStream_new stream_id disable_prerenderer_smoothing))
    with NoThread in Hlife.
  pose proof (perform_all_keeps_thread_stored ops
                (IncomingVideoStream_new stream_id disable_prerenderer_smoothing)
                eq_refl) as Hkeep.
  destruct (perform_all ops _) as [[[] s] log].
  destruct Hkeep as [_ Hinv].
  split; [ exact Hlife | ].
  pose proof (perform_follows_lifecycle Op_Stop s Hinv) as Hstop.
  pose proof (perform_keeps_thread_stored Op_Stop s Hinv) as Hkept.
  pose proof (Stop_succeeds s) as Hok.
  cbn [perform] in Hstop, Hkept. unfold discard, bind, ret in Hstop, Hkept.
  unfold IncomingVideoStream_delete.
  destruct (Stop s) as [[result s_end] log_end].
  destruct Hok as [Hresult Hstopped], Hkept as [_ Hinv_end].
  rewrite app_nil_r in Hstop.
  assert (Hnone : incoming_render_thread_ s_end = None).
  { unfold thread_stored in Hinv_end. rewrite Hstopped in Hinv_end.
    destruct (incoming_render_thread_ s_end); [ discriminate Hinv_end | reflexivity ]. }
  split; [ exact Hresult | ].
  split; [ | split; [ exact Hnone | exact Hstopped ] ].
  rewrite calls_app, thread_lifecycle_app.
  rewrite Hlife, Hstop.
  unfold phase_of. rewrite Hnone. reflexivity.
Qed.

(** *** Callbacks and the running state *)

(** Where a thread is stored exactly on a running buffered stream, one call
    or turn invokes at most one callback, and only with [running_] set. *)
Lemma perform_calls_back_while_running (op : Operation) (s : Stream) :
  thread_stored s = running_ s && negb (disable_prerenderer_smoothing_ s) ->
  let '(_, _, log) := perform op s in
  callbacks_while_running log = true /\
  (length (deliveries (calls log)) <= 1)%nat.
Proof.
  unfold thread_stored.
  destruct s as [id mode thread running ext prim buffers rate last count].
  cbn [incoming_render_thread_ running_ disable_prerenderer_smoothing_].
  intros Hinv.
  destruct running, mode, thread; try discriminate Hinv;
    destruct op as [ sid f now | cb | delay | cb | [ fresh | ] | | | | w ];
    run_member_functions; branches; split; solve [ reflexivity | cbn; lia ].
Qed.

(** X8.  Along any sequence of calls and turns on a stream from its
    constructor, each run to its end before the next begins, a callback is
    only ever invoked while [running_] is set: none before the first
    successful [Start], none between a [Stop] and the next [Start],
    whatever frames are offered and however the thread function is woken. *)
Theorem callbacks_only_while_running
    (stream_id : Z) (disable_prerenderer_smoothing : bool) (ops : list Operation) :
  let '(_, _, log) :=
    perform_all ops
      (IncomingVideoStream_new stream_id disable_prerenderer_smoothing) in
  callbacks_while_running log = true.
Proof.
  assert (Hall : forall (ops0 : list Operation) (s0 : Stream),
            thread_stored s0 = running_ s0 && negb (disable_prerenderer_smoothing_ s0) ->
            let '(_, _, log) := perform_all ops0 s0 in
            callbacks_while_running log = true).
  { induction ops0 as [ | op ops0 IH ]; intros s0 Hinv; cbn [perform_all].
    - reflexivity.
    - unfold bind.
      pose proof (perform_calls_back_while_running op s0 Hinv) as Hop.
      pose proof (perform_keeps_thread_stored op s0 Hinv) as Hkeep.
      destruct (perform op s0) as [[[] s1] log1].
      destruct Hkeep as [_ Hinv1], Hop as [Hop _].
      pose proof (IH s1 Hinv1) as Hrest.
      destruct (perform_all ops0 s1) as [[[] s2] log2].
      unfold callbacks_while_running in *.
      rewrite forallb_app, Hop, Hrest. reflexivity. }
  apply (Hall ops (IncomingVideoStream_new stream_id disable_prerenderer_smoothing)
           eq_refl).
Qed.

(** *** Starting *)

(** X1.  [Start], on any stream, returns [0] or [-1].  It returns [-1]
    exactly when the stream is not running, is in buffered mode and the
    allocation of the thread gave null; then the stream is left not running,
    no thread is started and no timer armed.  When it returns [0] the stream
    is running. *)
Theorem Start_fails_only_on_allocation
    (s : Stream) (fresh : option PlatformThread) :
  let '(result, s', log) := Start fresh s in
  (result = -1 <->
   running_ s = false /\ disable_prerenderer_smoothing_ s = false /\ fresh = None) /\
  (result <> -1 -> result = 0 /\ running_ s' = true) /\
  (result = -1 ->
   running_ s' = false /\
   incoming_render_thread_ s' = None /\
   existsb is_event_call (calls log) = false /\
   forall t, ~ In (Thread_Start t) (calls log)).
Proof.
  destruct s as [id mode thread running ext prim buffers rate last count].
  unfold Start. run_monad. reduce.
  destruct running, mode, fresh as [ t | ], thread as [ old | ]; reduce.
  all: split; [ split | split ].
  all: first
    [ intros H; discriminate H
    | intros (H1 & H2 & H3); discriminate
    | intros H; exfalso; apply H; reflexivity
    | intros _; reflexivity
    | intros _; split; reflexivity
    | intros _; split; [ reflexivity | split; reflexivity ]
    | intros _; do 3 (split; [ reflexivity | ]); intros t' Hin;
      repeat (destruct Hin as [Hin | Hin]; [ discriminate Hin | ]); exact Hin ].
Qed.

(** X2.  On a stream that is not running, in buffered mode, with no thread
    stored: a [Start] whose allocation gives null returns [-1] and leaves
    every field as it was; a [Start] after it whose allocation gives a
    thread returns [0], stores that thread and leaves the stream running,
    having started the thread, set its priority and armed the one-shot
    timer with [kEventStartupTimeMs], in this order and under the thread's
    critical section. *)
Theorem failed_Start_can_be_retried (s : Stream) (t : PlatformThread) :
  running_ s = false ->
  disable_prerenderer_smoothing_ s = false ->
  incoming_render_thread_ s = None ->
  let '(result1, s1, _) := Start None s in
  result1 = -1 /\
  s1 = s /\
  let '(result2, s2, log2) := Start (Some t) s1 in
  result2 = 0 /\
  running_ s2 = true /\
  incoming_render_thread_ s2 = Some t /\
  calls log2 =
    [Enter stream_critsect_; Enter thread_critsect_;
     Thread_new; Thread_Start t; Thread_SetPriority t;
     Event_StartTimer false kEventStartupTimeMs;
     Leave thread_critsect_; Leave stream_critsect_].
Proof.
  destruct s as [id mode thread running ext prim buffers rate last count].
  cbn [running_ disable_prerenderer_smoothing_ incoming_render_thread_].
  intros -> -> ->.
  unfold Start. run_monad. reduce.
  repeat split.
Qed.

(** X3.  On a stream that is not running and stores no thread, in either
    mode and whatever the allocation gives, [Start] followed by [Stop]
    leaves every field as it was before the [Start]; [Stop] returns [0];
    the thread started, if any, has been joined and deleted; and the timer
    armed by [Start], if any, has been stopped and the wake primitive
    signalled once. *)
Theorem Start_then_Stop_restores
    (s : Stream) (fresh : option PlatformThread) :
  running_ s = false ->
  incoming_render_thread_ s = None ->
  let '(_, s1, log1) := Start fresh s in
  let '(result, s2, log2) := Stop s1 in
  result = 0 /\
  s2 = s /\
  thread_lifecycle NoThread (calls (log1 ++ log2)) = Some NoThread /\
  filter is_event_call (calls (log1 ++ log2)) =
    match disable_prerenderer_smoothing_ s, fresh with
    | false, Some _ =>
        [Event_StartTimer false kEventStartupTimeMs; Event_StopTimer; Event_Set]
    | _, _ => []
    end.
Proof.
  destruct s as [id mode thread running ext prim buffers rate last count].
  cbn [running_ disable_prerenderer_smoothing_ incoming_render_thread_].
  intros -> ->.
  unfold Start, Stop. run_monad. reduce.
  destruct mode, fresh as [ t | ]; reduce; rewrite ?N.eqb_refl; repeat split.
Qed.

(** *** Sequences of frames *)

(** The rate statistics block touches the three statistics fields only. *)
Lemma after_statistics_rest (now : Z) (s : Stream) :
  running_ (after_statistics now s) = running_ s /\
  disable_prerenderer_smoothing_ (after_statistics now s) =
    disable_prerenderer_smoothing_ s /\
  render_buffers_ (after_statistics now s) = render_buffers_ s /\
  forall f, dispatch_rule (after_statistics now s) f = dispatch_rule s f.
Proof.
  unfold after_statistics, dispatch_rule.
  destruct (now >=? last_rate_calculation_time_ms_ s + kFrameRatePeriodMs);
    repeat split.
Qed.

(** X9.  In bypass mode, on a running stream, a sequence of calls of
    [RenderFrame] invokes the callbacks in the order of the calls: for each
    frame in turn what the dispatch rule gives for it, so one invocation for
    each frame that is not zero-size when a callback is set, whatever the
    clock shows.  With an external callback set, the invocations are exactly
    the frames that are not zero-size, in order, all to that callback.  The
    render buffer is never called. *)
Theorem bypass_delivers_in_call_order
    (s : Stream) (inputs : list (Z * VideoFrame * Z)) :
  running_ s = true ->
  disable_prerenderer_smoothing_ s = true ->
  let '(_, s', log) := perform_all (render_frames inputs) s in
  deliveries (calls log) =
    flat_map (fun x => dispatch_rule s (snd (fst x))) inputs /\
  (forall cb,
     external_callback_ s = Some cb ->
     deliveries (calls log) =
       map (fun x => (cb, stream_id_ s, snd (fst x)))
           (filter (fun x => negb (IsZeroSize (snd (fst x)))) inputs)) /\
  existsb is_buffer_call (calls log) = false /\
  render_buffers_ s' = render_buffers_ s.
Proof.
  intros Hrun Hmode.
  assert (Hall : forall (inputs0 : list (Z * VideoFrame * Z)) (s0 : Stream),
            running_ s0 = true ->
            disable_prerenderer_smoothing_ s0 = true ->
            let '(_, s', log) := perform_all (render_frames inputs0) s0 in
            deliveries (calls log) =
              flat_map (fun x => dispatch_rule s0 (snd (fst x))) inputs0 /\
            existsb is_buffer_call (calls log) = false /\
            render_buffers_ s' = render_buffers_ s0).
  { induction inputs0 as [ | [[id f] now] inputs0 IH ]; intros s0 Hrun0 Hmode0.
    - repeat split.
    - cbn [render_frames map perform_all perform fst snd].
      unfold discard, bind, ret.
      rewrite (RenderFrame_bypass_log s0 id f now Hrun0 Hmode0).
      destruct (after_statistics_rest now s0) as (Hrun1 & Hmode1 & Hbuf1 & Hrule1).
      rewrite Hrun0 in Hrun1. rewrite Hmode0 in Hmode1.
      pose proof (IH (after_statistics now s0) Hrun1 Hmode1) as Hrest.
      fold (render_frames inputs0).
      destruct (perform_all (render_frames inputs0) (after_statistics now s0))
        as [[[] s2] log2].
      destruct Hrest as (Hdel & Hnobuf & Hbuf2).
      cbn [flat_map fst snd].
      match goal with
      | |- deliveries (calls (((?a :: ?b :: ?m ++ ?r) ++ []) ++ ?l)) = _ /\ _ =>
          change (((a :: b :: m ++ r) ++ []) ++ l)
            with ((([a; b] ++ m ++ r) ++ []) ++ l)
      end.
      rewrite !calls_app.
      split; [ | split ].
      + rewrite !deliveries_app, DeliverFrame_deliveries, Hdel.
        cbn [calls map fst deliveries app]. rewrite !app_nil_r.
        rewrite Hrule1. f_equal. apply flat_map_ext. intros x. apply Hrule1.
      + rewrite !existsb_app, Hnobuf, DeliverFrame_log.
        cbn [existsb is_buffer_call orb snd calls map fst]. rewrite !orb_false_r.
        unfold dispatch_rule.
        destruct (IsZeroSize f); [ reflexivity | ].
        destruct (external_callback_ _); [ reflexivity | ].
        destruct (render_callback_ _); reflexivity.
      + rewrite Hbuf2. exact Hbuf1. }
  pose proof (Hall inputs s Hrun Hmode) as H.
  destruct (perform_all (render_frames inputs) s) as [[[] s'] log].
  destruct H as (Hdel & Hnobuf & Hbuf).
  split; [ exact Hdel | ].
  split; [ | split; [ exact Hnobuf | exact Hbuf ] ].
  intros cb Hcb. rewrite Hdel. clear Hdel Hnobuf Hbuf.
  induction inputs as [ | [[id f] now] inputs IH ]; [ reflexivity | ].
  cbn [flat_map filter map fst snd]. rewrite IH.
  unfold dispatch_rule. rewrite Hcb.
  destruct (IsZeroSize f); reflexivity.
Qed.

(** X10.  In buffered mode, on a running stream, a sequence of calls of
    [RenderFrame] hands the frames to the render buffer's [AddFrame] in the
    order of the calls, zero-size frames included; these are its only calls
    on the buffer, the buffer left is the one the insertions leave, and no
    callback is invoked: delivery is left to the thread function. *)
Theorem buffered_inserts_in_arrival_order
    (s : Stream) (inputs : list (Z * VideoFrame * Z)) :
  running_ s = true ->
  disable_prerenderer_smoothing_ s = false ->
  let '(_, s', log) := perform_all (render_frames inputs) s in
  filter is_buffer_call (calls log) =
    map (fun x => Buffer_AddFrame (snd (fst x))) inputs /\
  render_buffers_ s' =
    fold_left (fun b x => snd (AddFrame (snd (fst x)) b)) inputs (render_buffers_ s) /\
  deliveries (calls log) = [].
Proof.
  revert s.
  induction inputs as [ | [[id f] now] inputs IH ]; intros s Hrun Hmode.
  - repeat split.
  - cbn [render_frames map perform_all perform fst snd fold_left].
    unfold discard, bind, ret.
    pose proof (RenderFrame_buffered_log s id f now Hrun Hmode) as Hlog.
    cbv zeta in Hlog. rewrite Hlog. clear Hlog.
    destruct (after_statistics_rest now s) as (Hrun1 & Hmode1 & Hbuf1 & _).
    rewrite Hrun in Hrun1. rewrite Hmode in Hmode1.
    set (s3 := set_render_buffers_ (snd (AddFrame f (render_buffers_ s)))
                 (after_statistics now s)).
    assert (Hrun3 : running_ s3 = true) by exact Hrun1.
    assert (Hmode3 : disable_prerenderer_smoothing_ s3 = false) by exact Hmode1.
    pose proof (IH s3 Hrun3 Hmode3) as Hrest.
    fold (render_frames inputs).
    destruct (perform_all (render_frames inputs) s3) as [[[] s'] log].
    destruct Hrest as (Hcalls & Hbuf & Hdel).
    rewrite !calls_app, !filter_app, !deliveries_app, Hcalls, Hdel, Hbuf.
    split; [ | split ].
    + destruct (fst (AddFrame f (render_buffers_ s)) =? 1); reflexivity.
    + reflexivity.
    + destruct (fst (AddFrame f (render_buffers_ s)) =? 1); reflexivity.
Qed.

(** *** The rate statistics along sequences *)

(** What one call or turn does to the rate statistics: the statistics block
    on an accepted frame, nothing otherwise. *)
Lemma perform_statistics (op : Operation) (s : Stream) :
  let '(_, s', _) := perform op s in
  running_ s' = match op with
                | Op_Start _ | Op_Stop => running_ s'
                | _ => running_ s
                end /\
  statistics s' =
    match op with
    | Op_RenderFrame _ _ now =>
        if running_ s then statistics (after_statistics now s) else statistics s
    | _ => statistics s
    end.
Proof.
  destruct s as [id mode thread running ext prim buffers rate last count].
  destruct running;
    destruct op as [ sid f now | cb | delay | cb | fresh | | | | w ];
    run_member_functions; unfold statistics, after_statistics; reduce;
    branches; split; reflexivity.
Qed.

(** X11.  With a period that is not negative: along any sequence of calls
    and turns, on any stream, the start of the rate window never moves
    back, whatever the clock shows; and on a stream from its constructor
    the rate stays within [uint32_t], the frame counter within its type and
    the window start at or after [0]. *)
Theorem statistics_stay_in_range :
  0 <= kFrameRatePeriodMs ->
  0 <= num_frames_bits ->
  (forall (ops : list Operation) (s : Stream),
     let '(_, s', _) := perform_all ops s in
     last_rate_calculation_time_ms_ s <= last_rate_calculation_time_ms_ s') /\
  (forall (stream_id : Z) (disable_prerenderer_smoothing : bool)
          (ops : list Operation),
     let '(_, s, _) :=
       perform_all ops
         (IncomingVideoStream_new stream_id disable_prerenderer_smoothing) in
     0 <= incoming_rate_ s < 2 ^ 32 /\
     0 <= num_frames_since_last_calculation_ s < 2 ^ num_frames_bits /\
     0 <= last_rate_calculation_time_ms_ s).
Proof.
  intros Hperiod Hbits.
  assert (Hpow : 0 < 2 ^ num_frames_bits) by (apply Z.pow_pos_nonneg; lia).
  assert (Hstep : forall (op : Operation) (s : Stream),
            let '(_, s', _) := perform op s in
            last_rate_calculation_time_ms_ s <= last_rate_calculation_time_ms_ s' /\
            (0 <= incoming_rate_ s < 2 ^ 32 ->
             0 <= num_frames_since_last_calculation_ s < 2 ^ num_frames_bits ->
             0 <= incoming_rate_ s' < 2 ^ 32 /\
             0 <= num_frames_since_last_calculation_ s' < 2 ^ num_frames_bits)).
  { intros op s.
    pose proof (perform_statistics op s) as H.
    destruct (perform op s) as [[[] s'] log].
    destruct H as [_ H].
    assert (Hcases : statistics s' = statistics s \/
                     exists now, statistics s' = statistics (after_statistics now s)).
    { destruct op; try (left; exact H).
      destruct (running_ s); [ right; eexists; exact H | left; exact H ]. }
    destruct Hcases as [Hsame | [now Hafter]].
    - unfold statistics in Hsame. injection Hsame as -> -> ->.
      split; [ lia | intros; split; assumption ].
    - unfold statistics, after_statistics in Hafter.
      destruct (Z.geb_spec now (last_rate_calculation_time_ms_ s + kFrameRatePeriodMs));
        reduce_in Hafter; injection Hafter as -> -> ->.
      + split; [ lia | intros _ _ ].
        split; [ apply Z.mod_pos_bound; reflexivity | lia ].
      + split; [ lia | intros Hrate _ ].
        split; [ exact Hrate | apply Z.mod_pos_bound; exact Hpow ]. }
  assert (Hall : forall (ops : list Operation) (s : Stream),
            let '(_, s', _) := perform_all ops s in
            last_rate_calculation_time_ms_ s <= last_rate_calculation_time_ms_ s' /\
            (0 <= incoming_rate_ s < 2 ^ 32 ->
             0 <= num_frames_since_last_calculation_ s < 2 ^ num_frames_bits ->
             0 <= incoming_rate_ s' < 2 ^ 32 /\
             0 <= num_frames_since_last_calculation_ s' < 2 ^ num_frames_bits)).
  { induction ops as [ | op ops IH ]; intros s; cbn [perform_all].
    - unfold ret. split; [ lia | intros; split; assumption ].
    - unfold bind.
      pose proof (Hstep op s) as Hop.
      destruct (perform op s) as [[[] s1] log1].
      pose proof (IH s1) as Hrest.
      destruct (perform_all ops s1) as [[[] s2] log2].
      destruct Hop as [Hlast1 Hrange1], Hrest as [Hlast2 Hrange2].
      split; [ lia | intros Hrate Hcount ].
      destruct (Hrange1 Hrate Hcount) as [Hrate1 Hcount1].
      apply Hrange2; assumption. }
  split.
  - intros ops s. pose proof (Hall ops s) as H.
    destruct (perform_all ops s) as [[[] s'] log]. apply H.
  - intros stream_id disable ops.
    pose proof (Hall ops (IncomingVideoStream_new stream_id disable)) as H.
    destruct (perform_all ops _) as [[[] s] log].
    destruct H as [Hlast Hrange]. cbn in Hlast, Hrange.
    destruct Hrange as [Hrate Hcount]; [ lia | lia | ].
    split; [ exact Hrate | split; [ exact Hcount | exact Hlast ] ].
Qed.

(** X12.  With a positive period and a counter narrower than [int]: on a
    running stream, in either mode and whatever the frames, let some frames
    be offered at times before the end of the current rate window and then
    one at a time at or after it, the counter not reaching the end of its
    type.  Then the rate becomes 1000 times the number of frames counted
    since the window started, this last one included, divided by the time
    since the window started; the counter is zero and the window starts at
    the time of the last frame. *)
Theorem rate_counts_frames_of_window
    (s : Stream) (early : list (Z * VideoFrame * Z))
    (stream_id : Z) (video_frame : VideoFrame) (now : Z) :
  0 < kFrameRatePeriodMs ->
  0 < num_frames_bits <= 16 ->
  running_ s = true ->
  Forall (fun x => snd x < last_rate_calculation_time_ms_ s + kFrameRatePeriodMs)
         early ->
  last_rate_calculation_time_ms_ s + kFrameRatePeriodMs <= now ->
  0 <= num_frames_since_last_calculation_ s ->
  num_frames_since_last_calculation_ s + Z.of_nat (length early) + 1
    < 2 ^ num_frames_bits ->
  let '(_, s', _) :=
    perform_all (render_frames (early ++ [(stream_id, video_frame, now)])) s in
  incoming_rate_ s' =
    1000 * (num_frames_since_last_calculation_ s + Z.of_nat (length early) + 1)
    / (now - last_rate_calculation_time_ms_ s) /\
  num_frames_since_last_calculation_ s' = 0 /\
  last_rate_calculation_time_ms_ s' = now.
Proof.
  intros Hperiod Hbits. revert s.
  induction early as [ | [[id f] t] early IH ];
    intros s Hrun Hearly Hnow Hcount Hroom.
  - cbn [app render_frames map perform_all fst snd].
    unfold bind, ret.
    pose proof (perform_statistics (Op_RenderFrame stream_id video_frame now) s) as H.
    destruct (perform (Op_RenderFrame stream_id video_frame now) s) as [[[] s1] log1].
    destruct H as [_ H]. rewrite Hrun in H.
    unfold statistics, after_statistics in H.
    destruct (Z.geb_spec now (last_rate_calculation_time_ms_ s + kFrameRatePeriodMs));
      [ | lia ].
    reduce_in H.
    apply pair_equal_spec in H. destruct H as [H Hcount1].
    apply pair_equal_spec in H. destruct H as [Hrate1 Hlast1].
    rewrite Hrate1, Hlast1, Hcount1.
    change (Z.of_nat (@length (Z * VideoFrame * Z) [])) with 0 in Hroom |- *.
    split; [ | split; reflexivity ].
    rewrite rate_fits_uint32 by (try exact Hbits; lia).
    unfold wrap. rewrite Z.mod_small by lia.
    rewrite Z.add_0_r. reflexivity.
  - cbn [app render_frames map perform_all fst snd].
    fold (render_frames (early ++ [(stream_id, video_frame, now)])).
    unfold bind.
    pose proof (perform_statistics (Op_RenderFrame id f t) s) as H.
    destruct (perform (Op_RenderFrame id f t) s) as [[[] s1] log1].
    destruct H as [Hrun1 H]. rewrite Hrun in H, Hrun1.
    inversion Hearly as [ | x l Ht Hrest ]; subst. cbn [snd] in Ht.
    unfold statistics, after_statistics in H.
    destruct (Z.geb_spec t (last_rate_calculation_time_ms_ s + kFrameRatePeriodMs));
      [ lia | ].
    reduce_in H.
    apply pair_equal_spec in H. destruct H as [H Hcount1].
    apply pair_equal_spec in H. destruct H as [Hrate1 Hlast1].
    cbn [length] in Hroom. rewrite Nat2Z.inj_succ in Hroom.
    assert (Hwrap : num_frames_since_last_calculation_ s1 =
                    num_frames_since_last_calculation_ s + 1).
    { rewrite Hcount1. unfold wrap. apply Z.mod_small. lia. }
    assert (Hearly1 : Forall (fun x => snd x <
                         last_rate_calculation_time_ms_ s1 + kFrameRatePeriodMs) early)
      by (rewrite Hlast1; exact Hrest).
    pose proof (IH s1 Hrun1 Hearly1) as Hind.
    rewrite Hlast1, Hwrap in Hind.
    specialize (Hind Hnow ltac:(lia) ltac:(lia)).
    destruct (perform_all (render_frames (early ++ [(stream_id, video_frame, now)])) s1)
      as [[[] s'] log].
    destruct Hind as (Hrate & Hzero & Hlast).
    split; [ | split; assumption ].
    rewrite Hrate. cbn [length]. rewrite Nat2Z.inj_succ.
    f_equal. lia.
Qed.

(** X14.  Nothing but [RenderFrame] changes the rate statistics: along any
    sequence of the other calls and of turns of the thread function ([Stop]
    and [Start] among them), on any stream, the rate, the window start and
    the frame counter are at the end what they were at the beginning, and
    [IncomingRate] returns the same rate. *)
Theorem statistics_survive_other_calls (ops : list Operation) (s : Stream) :
  Forall (fun op => match op with
                    | Op_RenderFrame _ _ _ => False
                    | _ => True
                    end) ops ->
  let '(_, s', _) := perform_all ops s in
  statistics s' = statistics s /\
  fst (fst (IncomingRate s')) = fst (fst (IncomingRate s)).
Proof.
  intros Hops.
  assert (Hall : let '(_, s', _) := perform_all ops s in
                 statistics s' = statistics s).
  { revert s. induction Hops as [ | op ops Hop Hops IH ]; intros s;
      cbn [perform_all]; [ reflexivity | ].
    unfold bind.
    pose proof (perform_statistics op s) as H.
    destruct (perform op s) as [[[] s1] log1].
    destruct H as [_ H].
    pose proof (IH s1) as Hrest.
    destruct (perform_all ops s1) as [[[] s2] log2].
    rewrite Hrest, H. destruct op; try reflexivity. destruct Hop. }
  destruct (perform_all ops s) as [[[] s'] log].
  split; [ exact Hall | ].
  unfold statistics in Hall. injection Hall as Hrate _ _.
  unfold IncomingRate. run_monad. exact Hrate.
Qed.

(** *** Setting the callbacks *)


(** *** Timers *)


(** *** Turns of the thread function *)

(** X16.  On a stream that stores a thread, over any number of successive
    turns of the thread function, each frame the buffer hands out is
    dispatched once, in the order handed out, by the dispatch rule (so a
    zero-size frame reaches no callback); a turn whose wait fails asks the
    buffer for nothing; and the buffer left is the one these queries
    leave. *)
Theorem thread_function_dispatches_each_frame_once
    (s : Stream) (t : PlatformThread) (waits : list EventTypeWrapper) :
  incoming_render_thread_ s = Some t ->
  let '(_, s', log) := perform_all (map Op_Process waits) s in
  let yielded := frames_yielded waits (render_buffers_ s) in
  deliveries (calls log) = flat_map (dispatch_rule s) (fst yielded) /\
  filter (fun c => match c with
                   | Buffer_FrameToRender => true
                   | _ => false
                   end) (calls log)
    = map (fun _ => Buffer_FrameToRender) (fst yielded) /\
  render_buffers_ s' = snd yielded /\
  incoming_render_thread_ s' = Some t.
Proof.
  revert s. induction waits as [ | w waits IH ]; intros s Hthread.
  - repeat split. exact Hthread.
  - cbn [map perform_all perform frames_yielded]. unfold discard, bind, ret.
    destruct (EventTypeWrapper_eqb kEventError w) eqn:Hw.
    + destruct w; try discriminate Hw.
      rewrite Process_error_log.
      pose proof (IH s Hthread) as Hrest.
      destruct (perform_all (map Op_Process waits) s) as [[[] s'] log].
      exact Hrest.
    + assert (Hwait : w <> kEventError) by (intros ->; discriminate Hw).
      pose proof (Process_live_log s t w Hwait Hthread) as Hlog.
      cbv zeta in Hlog. rewrite Hlog. clear Hlog.
      set (popped := FrameToRender (render_buffers_ s)).
      set (queried := TimeToNextFrameRelease (snd popped)).
      set (s2 := set_render_buffers_ (snd queried)
                   (set_render_buffers_ (snd popped) s)).
      assert (Hthread2 : incoming_render_thread_ s2 = Some t) by exact Hthread.
      pose proof (IH s2 Hthread2) as Hrest.
      destruct (perform_all (map Op_Process waits) s2) as [[[] s'] log].
      change (render_buffers_ s2) with (snd queried) in Hrest.
      cbv zeta in Hrest |- *.
      destruct Hrest as (Hdel & Hpops & Hbuf & Hthread').
      cbn [fst snd flat_map map].
      rewrite !calls_app, !deliveries_app, !filter_app, DeliverFrame_deliveries,
        Hdel, Hpops, DeliverFrame_log.
      cbn [calls map fst snd deliveries filter app]. rewrite !app_nil_r.
      split; [ reflexivity | ].
      split; [ | split; assumption ].
      unfold dispatch_rule.
      destruct (IsZeroSize (fst popped)); [ reflexivity | ].
      destruct (external_callback_ s2); [ reflexivity | ].
      destruct (render_callback_ s2); reflexivity.
Qed.

(** *** What leaves the render buffer alone *)

(** X17.  [Stop], [Start], the callback setters and [IncomingRate] never
    call the render buffer: along any sequence of them, on any stream, the
    buffer is at the end what it was at the beginning, so frames queued
    before a [Stop] are still queued after the next [Start]. *)
Theorem buffer_survives_stop_and_start (ops : list Operation) (s : Stream) :
  forallb leaves_buffer ops = true ->
  let '(_, s', log) := perform_all ops s in
  render_buffers_ s' = render_buffers_ s /\
  existsb is_buffer_call (calls log) = false.
Proof.
  revert s. induction ops as [ | op ops IH ]; intros s Hops;
    cbn [perform_all]; [ split; reflexivity | ].
  cbn [forallb] in Hops. apply andb_true_iff in Hops. destruct Hops as [Hop Hops].
  unfold bind.
  assert (Hstep : let '(_, s1, log1) := perform op s in
                  render_buffers_ s1 = render_buffers_ s /\
                  existsb is_buffer_call (calls log1) = false).
  { destruct op as [ id f now | cb | delay | cb | fresh | | | | w ];
      try discriminate Hop;
      run_member_functions; branches; split; reflexivity. }
  destruct (perform op s) as [[[] s1] log1].
  pose proof (IH s1 Hops) as Hrest.
  destruct (perform_all ops s1) as [[[] s2] log2].
  destruct Hstep as [Hbuf1 Hno1], Hrest as [Hbuf2 Hno2].
  split; [ congruence | ].
  rewrite calls_app, existsb_app, Hno1, Hno2. reflexivity.
Qed.

End Properties.

(** * The properties on the small instance *)

Import Fifo.

(** The streams of the instance are reached from the constructor. *)
Lemma instance_streams_reached :
  snd (fst (perform_all
              [Op_SetRenderCallback (Some 1%N); Op_Start (Some 7%N)]
              stopped)) = buffered_running /\
  snd (fst (perform_all
              [Op_SetRenderCallback (Some 1%N);
               Op_SetExpectedRenderDelay 250;
               Op_Start (Some 7%N);
               Op_RenderFrame 5 42 5000]
              stopped)) = buffered_slow /\
  snd (fst (perform_all
              [Op_SetRenderCallback (Some 1%N);
               Op_SetExternalCallback (Some 2%N);
               Op_Start None;
               Op_RenderFrame 5 40 5000;
               Op_RenderFrame 5 41 5100;
               Op_RenderFrame 5 42 5200;
               Op_RenderFrame 5 43 5300]
              (IncomingVideoStream_new 5 true))) = bypass_running.
Proof. repeat split. Qed.

(** C1 as first stated fails in bypass mode: the stream is running, and
    [Stop] releases no handle, stops no timer and does not signal the wake
    primitive. *)
Lemma Stop_bypass_signals_nothing :
  running_ bypass_running = true /\
  Stop bypass_running =
    (0, set_running_ false bypass_running,
     [(Enter stream_critsect_, bypass_running);
      (Enter thread_critsect_, bypass_running);
      (Leave thread_critsect_, bypass_running);
      (Leave stream_critsect_, set_running_ false bypass_running)]) /\
  ~ In Thread_release (calls (snd (Stop bypass_running))) /\
  ~ In Event_StopTimer (calls (snd (Stop bypass_running))) /\
  ~ In Event_Set (calls (snd (Stop bypass_running))).
Proof.
  split; [ reflexivity | ].
  split; [ reflexivity | ].
  repeat split; cbn; intros H;
    repeat (destruct H as [H | H]; [ discriminate H | ]); exact H.
Qed.

(** C8 as first stated fails on a turn whose wait fails: the turn returns
    [true], so the loop goes on, and it has neither asked the buffer nor
    armed the timer. *)
Lemma Process_error_turn_arms_nothing :
  IncomingVideoStreamProcess kEventError buffered_running =
    (true, buffered_running, [(Event_Wait 100, buffered_running)]) /\
  existsb is_buffer_call
    (calls (snd (IncomingVideoStreamProcess kEventError buffered_running))) = false /\
  filter is_event_call
    (calls (snd (IncomingVideoStreamProcess kEventError buffered_running))) =
    [Event_Wait 100].
Proof. repeat split. Qed.

(** [Stop] on the started buffered stream, and the thread function on what
    the release leaves. *)
Lemma Stop_shutdown_protocol_witness :
  running_ buffered_running = true /\
  incoming_render_thread_ buffered_running = Some 7%N /\
  calls (snd (Stop buffered_running)) =
    [Enter stream_critsect_; Enter thread_critsect_;
     Thread_release; Event_StopTimer; Event_Set;
     Leave thread_critsect_;
     Thread_Stop 7%N; Thread_delete 7%N;
     Leave stream_critsect_] /\
  running_ (snd (fst (Stop buffered_running))) = false /\
  kEventSignaled <> kEventError /\
  fst (fst (IncomingVideoStreamProcess kEventSignaled
              (set_incoming_render_thread_ None buffered_running))) = false.
Proof.
  split; [ reflexivity | ].
  split; [ reflexivity | ].
  assert (Hwait : kEventSignaled <> kEventError) by discriminate.
  destruct (Stop_shutdown_protocol buffered_running eq_refl)
    as (Hstop & _ & _ & _ & _ & Hloop & _).
  rewrite (Hstop 7%N eq_refl).
  split; [ reflexivity | ].
  split; [ reflexivity | ].
  split; [ exact Hwait | ].
  destruct (Hloop (set_incoming_render_thread_ None buffered_running)
                  kEventSignaled [] Hwait eq_refl) as [-> _].
  reflexivity.
Defined.

(** A frame offered to the stream that was never started. *)
Lemma RenderFrame_not_running_fails_witness :
  running_ stopped = false /\
  RenderFrame 9 42 6000 stopped =
    (-1, stopped,
     [(Enter stream_critsect_, stopped); (Leave stream_critsect_, stopped)]).
Proof.
  split; [ reflexivity | ].
  pose proof (RenderFrame_not_running_fails stopped 9 42 6000 eq_refl) as H.
  destruct (RenderFrame _ _ _ _) as [[result s'] log].
  destruct H as (-> & -> & _ & _ & _ & _ & -> & _).
  reflexivity.
Defined.

(** The first frame of the started buffered stream: the buffer reports one
    frame and the wake primitive is signalled. *)
Lemma RenderFrame_buffered_inserts_and_signals_witness :
  running_ buffered_running = true /\
  disable_prerenderer_smoothing_ buffered_running = false /\
  fst (AddFrame 42 (render_buffers_ buffered_running)) = 1 /\
  calls (snd (RenderFrame 9 42 6000 buffered_running)) =
    [Enter stream_critsect_; TickTime_MillisecondTimestamp;
     Enter buffer_critsect_; Buffer_AddFrame 42; Event_Set;
     Leave buffer_critsect_; Leave stream_critsect_].
Proof.
  split; [ reflexivity | ].
  split; [ reflexivity | ].
  split; [ reflexivity | ].
  pose proof (RenderFrame_buffered_inserts_and_signals
                buffered_running 9 42 6000 eq_refl eq_refl) as H.
  cbv zeta in H.
  destruct (RenderFrame _ _ _ _) as [[result s'] log].
  cbn [snd]. destruct H as (_ & _ & -> & _).
  reflexivity.
Defined.

(** [Start] on a started stream, [Stop] on a stream never started, and
    [Start] twice. *)
Lemma Start_Stop_idempotent_witness :
  running_ bypass_running = true /\
  Start None bypass_running =
    (0, bypass_running,
     [(Enter stream_critsect_, bypass_running);
      (Leave stream_critsect_, bypass_running)]) /\
  running_ stopped = false /\
  Stop stopped =
    (0, stopped,
     [(Enter stream_critsect_, stopped); (Leave stream_critsect_, stopped)]) /\
  fst (fst (Start (Some 7%N) stopped)) = 0 /\
  calls (snd (Start (Some 8%N) (snd (fst (Start (Some 7%N) stopped))))) =
    [Enter stream_critsect_; Leave stream_critsect_].
Proof.
  split; [ reflexivity | ].
  split; [ apply (proj1 (Start_Stop_idempotent bypass_running) None); reflexivity | ].
  split; [ reflexivity | ].
  split; [ apply (proj1 (proj2 (Start_Stop_idempotent stopped))); reflexivity | ].
  split; [ reflexivity | ].
  pose proof (proj1 (proj2 (proj2 (Start_Stop_idempotent stopped)))
                (Some 7%N) (Some 8%N)) as H.
  destruct (Start (Some 7%N) stopped) as [[result s1] log] eqn:E.
  assert (Hok : result = 0) by (apply (f_equal (fun r => fst (fst r))) in E; symmetry; exact E).
  cbn [fst snd]. rewrite (H Hok). reflexivity.
Defined.

(** With both callbacks set, a frame goes to the external one, with the
    stream's id and not the id given to [RenderFrame]; the empty buffer hands
    the thread function a zero-size frame, which goes nowhere. *)
Lemma dispatch_follows_rule_witness :
  running_ bypass_running = true /\
  disable_prerenderer_smoothing_ bypass_running = true /\
  deliveries (calls (snd (RenderFrame 9 42 6000 bypass_running))) =
    [(2%N, 5, 42)] /\
  incoming_render_thread_ buffered_running = Some 7%N /\
  deliveries (calls (snd (IncomingVideoStreamProcess kEventTimeout buffered_running))) =
    [].
Proof.
  split; [ reflexivity | ].
  split; [ reflexivity | ].
  split.
  - pose proof (proj1 (proj2 (dispatch_follows_rule bypass_running 42))
                  9 6000 eq_refl eq_refl) as H.
    destruct (RenderFrame _ _ _ _) as [[result s'] log].
    cbn [snd]. destruct H as [_ ->]. reflexivity.
  - split; [ reflexivity | ].
    assert (Hwait : kEventTimeout <> kEventError) by discriminate.
    pose proof (proj2 (proj2 (dispatch_follows_rule buffered_running 0))
                  kEventTimeout 7%N Hwait eq_refl) as H.
    destruct (IncomingVideoStreamProcess kEventTimeout buffered_running)
      as [[continue s'] log].
    cbn [snd]. destruct H as [_ ->]. reflexivity.
Defined.

(** The fourth frame since time 5000 arrives at time 6000: the rate becomes
    [1000 * 4 / 1000] and a new window starts. *)
Lemma RenderFrame_rate_estimator_witness :
  0 < kFrameRatePeriodMs /\
  0 < num_frames_bits <= 16 /\
  running_ bypass_running = true /\
  (6000 >=? last_rate_calculation_time_ms_ bypass_running + kFrameRatePeriodMs) = true /\
  incoming_rate_ (snd (fst (RenderFrame 9 42 6000 bypass_running))) = 4 /\
  num_frames_since_last_calculation_
    (snd (fst (RenderFrame 9 42 6000 bypass_running))) = 0 /\
  last_rate_calculation_time_ms_
    (snd (fst (RenderFrame 9 42 6000 bypass_running))) = 6000.
Proof.
  assert (Hperiod : 0 < kFrameRatePeriodMs) by reflexivity.
  assert (Hbits : 0 < num_frames_bits <= 16)
    by (split; [ reflexivity | discriminate ]).
  split; [ exact Hperiod | ].
  split; [ exact Hbits | ].
  split; [ reflexivity | ].
  split; [ reflexivity | ].
  pose proof (RenderFrame_rate_estimator bypass_running 9 42 6000
                Hperiod Hbits eq_refl) as H.
  cbv zeta in H.
  destruct (RenderFrame _ _ _ _) as [[result s'] log].
  destruct H as (_ & H & _).
  cbn [fst snd]. exact H.
Defined.

(** A turn of the thread function on the started buffered stream, where the
    buffer reports 10 ms, below the ceiling of 100 ms; and on the slow one,
    where it reports 250 ms and the timer is armed with the ceiling before
    the frame goes to the render callback. *)
Lemma Process_rearms_timer_clamped_witness :
  kEventSignaled <> kEventError /\
  incoming_render_thread_ buffered_running = Some 7%N /\
  calls (snd (IncomingVideoStreamProcess kEventSignaled buffered_running)) =
    [Event_Wait 100;
     Enter thread_critsect_;
     Enter buffer_critsect_;
     Buffer_FrameToRender;
     Buffer_TimeToNextFrameRelease;
     Leave buffer_critsect_;
     Event_StartTimer false 10;
     Enter thread_critsect_; Leave thread_critsect_;
     Leave thread_critsect_] /\
  incoming_render_thread_ buffered_slow = Some 7%N /\
  calls (snd (IncomingVideoStreamProcess kEventSignaled buffered_slow)) =
    [Event_Wait 100;
     Enter thread_critsect_;
     Enter buffer_critsect_;
     Buffer_FrameToRender;
     Buffer_TimeToNextFrameRelease;
     Leave buffer_critsect_;
     Event_StartTimer false 100;
     Enter thread_critsect_; Callback_RenderFrame 1%N 5 42; Leave thread_critsect_;
     Leave thread_critsect_].
Proof.
  assert (Hwait : kEventSignaled <> kEventError) by discriminate.
  split; [ exact Hwait | ].
  split; [ reflexivity | ].
  split.
  - pose proof (Process_rearms_timer_clamped buffered_running 7%N kEventSignaled
                  Hwait eq_refl) as H.
    cbv zeta in H.
    destruct (IncomingVideoStreamProcess kEventSignaled buffered_running)
      as [[continue s'] log].
    cbn [snd]. destruct H as (_ & -> & (-> & _) & _).
    rewrite DeliverFrame_log. reflexivity.
  - split; [ reflexivity | ].
    pose proof (Process_rearms_timer_clamped buffered_slow 7%N kEventSignaled
                  Hwait eq_refl) as H.
    cbv zeta in H.
    destruct (IncomingVideoStreamProcess kEventSignaled buffered_slow)
      as [[continue s'] log].
    cbn [snd]. destruct H as (_ & -> & (-> & _) & _).
    rewrite DeliverFrame_log. reflexivity.
Defined.

(** * The further properties on the small instance *)

(** An allocation that fails, then one that gives thread [7]. *)
Lemma failed_Start_can_be_retried_witness :
  running_ stopped = false /\
  disable_prerenderer_smoothing_ stopped = false /\
  incoming_render_thread_ stopped = None /\
  Start None stopped =
    (-1, stopped,
     [(Enter stream_critsect_, stopped); (Enter thread_critsect_, stopped);
      (Thread_new, stopped);
      (Leave thread_critsect_, stopped); (Leave stream_critsect_, stopped)]) /\
  incoming_render_thread_ (snd (fst (Start (Some 7%N) stopped))) = Some 7%N.
Proof.
  split; [ reflexivity | ].
  split; [ reflexivity | ].
  split; [ reflexivity | ].
  pose proof (failed_Start_can_be_retried stopped 7%N eq_refl eq_refl eq_refl) as H.
  split; [ reflexivity | ].
  remember (Start None stopped) as first eqn:E1.
  destruct first as [[result1 s1] log1].
  destruct H as (_ & Hs1 & H). subst s1.
  destruct H as (_ & _ & Hthread & _).
  exact Hthread.
Defined.

(** A buffered stream started with thread [7] and stopped again. *)
Lemma Start_then_Stop_restores_witness :
  running_ stopped = false /\
  incoming_render_thread_ stopped = None /\
  snd (fst (Stop (snd (fst (Start (Some 7%N) stopped))))) = stopped.
Proof.
  split; [ reflexivity | ].
  split; [ reflexivity | ].
  pose proof (Start_then_Stop_restores stopped (Some 7%N) eq_refl eq_refl) as H.
  destruct (Start (Some 7%N) _) as [[result1 s1] log1].
  cbn [fst snd].
  destruct (Stop s1) as [[result s2] log2].
  destruct H as (_ & Hrestored & _). exact Hrestored.
Defined.

(** Three frames in bypass mode, the second of zero size: the other two
    reach the external callback, in order, with the stream's id. *)
Lemma bypass_delivers_in_call_order_witness :
  running_ bypass_running = true /\
  disable_prerenderer_smoothing_ bypass_running = true /\
  deliveries
    (calls (snd (perform_all
                   (render_frames [(9, 42, 5400); (9, 0, 5500); (9, 43, 5600)])
                   bypass_running))) =
    [(2%N, 5, 42); (2%N, 5, 43)].
Proof.
  split; [ reflexivity | ].
  split; [ reflexivity | ].
  pose proof (bypass_delivers_in_call_order bypass_running
                [(9, 42, 5400); (9, 0, 5500); (9, 43, 5600)] eq_refl eq_refl) as H.
  destruct (perform_all _ _) as [[[] s'] log].
  cbn [snd]. destruct H as (_ & H & _).
  rewrite (H 2%N eq_refl). reflexivity.
Defined.

(** Two frames in buffered mode: both are inserted, in order. *)
Lemma buffered_inserts_in_arrival_order_witness :
  running_ buffered_running = true /\
  disable_prerenderer_smoothing_ buffered_running = false /\
  queue (render_buffers_
           (snd (fst (perform_all (render_frames [(5, 42, 5000); (5, 43, 5100)])
                        buffered_running)))) = [42; 43].
Proof.
  split; [ reflexivity | ].
  split; [ reflexivity | ].
  pose proof (buffered_inserts_in_arrival_order buffered_running
                [(5, 42, 5000); (5, 43, 5100)] eq_refl eq_refl) as H.
  destruct (perform_all _ _) as [[[] s'] log].
  cbn [fst snd]. destruct H as (_ & Hbuffer & _).
  rewrite Hbuffer. reflexivity.
Defined.

(** The constants of the instance, and a clock that runs backwards between
    two frames. *)
Lemma statistics_stay_in_range_witness :
  0 <= kFrameRatePeriodMs /\
  0 <= num_frames_bits /\
  last_rate_calculation_time_ms_ bypass_running
    <= last_rate_calculation_time_ms_
         (snd (fst (perform_all [Op_RenderFrame 5 42 9000; Op_RenderFrame 5 43 100]
                      bypass_running))).
Proof.
  assert (Hperiod : 0 <= kFrameRatePeriodMs) by discriminate.
  assert (Hbits : 0 <= num_frames_bits) by discriminate.
  split; [ exact Hperiod | ].
  split; [ exact Hbits | ].
  destruct (statistics_stay_in_range Hperiod Hbits) as [Hback _].
  pose proof (Hback [Op_RenderFrame 5 42 9000; Op_RenderFrame 5 43 100]
                bypass_running) as H.
  destruct (perform_all _ _) as [[[] s'] log].
  exact H.
Defined.

(** Three frames counted since time 5000, one more at 5400 and one at 6200:
    five frames in 1200 ms. *)
Lemma rate_counts_frames_of_window_witness :
  0 < kFrameRatePeriodMs /\
  0 < num_frames_bits <= 16 /\
  running_ bypass_running = true /\
  incoming_rate_
    (snd (fst (perform_all (render_frames ([(5, 44, 5400)] ++ [(5, 45, 6200)]))
                 bypass_running))) = 4.
Proof.
  assert (Hperiod : 0 < kFrameRatePeriodMs) by reflexivity.
  assert (Hbits : 0 < num_frames_bits <= 16)
    by (split; [ reflexivity | discriminate ]).
  split; [ exact Hperiod | ].
  split; [ exact Hbits | ].
  split; [ reflexivity | ].
  assert (Hearly : Forall (fun x : Z * VideoFrame * Z =>
                             snd x < last_rate_calculation_time_ms_ bypass_running
                                     + kFrameRatePeriodMs) [(5, 44, 5400)])
    by (constructor; [ reflexivity | constructor ]).
  assert (Hnow : last_rate_calculation_time_ms_ bypass_running + kFrameRatePeriodMs
                 <= 6200) by discriminate.
  assert (Hcount : 0 <= num_frames_since_last_calculation_ bypass_running)
    by discriminate.
  assert (Hroom : num_frames_since_last_calculation_ bypass_running
                  + Z.of_nat (length [(5, 44, 5400)]) + 1 < 2 ^ num_frames_bits)
    by reflexivity.
  pose proof (rate_counts_frames_of_window bypass_running [(5, 44, 5400)] 5 45 6200
                Hperiod Hbits eq_refl Hearly Hnow Hcount Hroom) as H.
  destruct (perform_all _ _) as [[[] s'] log].
  cbn [fst snd]. destruct H as (Hrate & _). rewrite Hrate. reflexivity.
Defined.

(** The statistics of the bypass stream across [Stop], [Start] and [Reset]. *)
Lemma statistics_survive_other_calls_witness :
  statistics (snd (fst (perform_all [Op_Stop; Op_Start None; Op_Reset]
                          bypass_running))) = (0, 5000, 3).
Proof.
  assert (Hops : Forall (fun op : Operation =>
                           match op with
                           | Op_RenderFrame _ _ _ => False
                           | _ => True
                           end) [Op_Stop; Op_Start None; Op_Reset])
    by (repeat constructor).
  pose proof (statistics_survive_other_calls [Op_Stop; Op_Start None; Op_Reset]
                bypass_running Hops) as H.
  destruct (perform_all _ _) as [[[] s'] log].
  cbn [fst snd]. destruct H as [Hstatistics _]. rewrite Hstatistics. reflexivity.
Defined.


(** Three turns on the slow stream, which holds one frame; the second wait
    fails.  The frame is dispatched once; the zero-size frame of the third
    turn reaches no callback. *)
Lemma thread_function_dispatches_each_frame_once_witness :
  incoming_render_thread_ buffered_slow = Some 7%N /\
  fst (frames_yielded [kEventSignaled; kEventError; kEventTimeout]
         (render_buffers_ buffered_slow)) = [42; 0] /\
  deliveries
    (calls (snd (perform_all
                   (map Op_Process [kEventSignaled; kEventError; kEventTimeout])
                   buffered_slow))) = [(1%N, 5, 42)].
Proof.
  split; [ reflexivity | ].
  split; [ reflexivity | ].
  pose proof (thread_function_dispatches_each_frame_once buffered_slow 7%N
                [kEventSignaled; kEventError; kEventTimeout] eq_refl) as H.
  destruct (perform_all _ _) as [[[] s'] log].
  cbn [snd]. cbv zeta in H. destruct H as (Hdeliveries & _).
  rewrite Hdeliveries. reflexivity.
Defined.

(** The frame queued in the slow stream is still queued after a [Stop] and
    a [Start]. *)
Lemma buffer_survives_stop_and_start_witness :
  forallb leaves_buffer [Op_Stop; Op_Start (Some 8%N)] = true /\
  queue (render_buffers_
           (snd (fst (perform_all [Op_Stop; Op_Start (Some 8%N)] buffered_slow)))) =
    [42].
Proof.
  split; [ reflexivity | ].
  pose proof (buffer_survives_stop_and_start [Op_Stop; Op_Start (Some 8%N)]
                buffered_slow eq_refl) as H.
  destruct (perform_all _ _) as [[[] s'] log].
  cbn [fst snd]. destruct H as [Hbuffer _]. rewrite Hbuffer. reflexivity.
Defined.

(** [Start] on the buffered stream never started, with an allocation that
    fails: the one case in which it returns [-1]. *)
Lemma Start_fails_only_on_allocation_witness :
  fst (fst (Start None stopped)) = -1 /\
  running_ (snd (fst (Start None stopped))) = false /\
  fst (fst (Start None (IncomingVideoStream_new 5 true))) = 0.
Proof.
  pose proof (Start_fails_only_on_allocation stopped None) as H.
  pose proof (Start_fails_only_on_allocation (IncomingVideoStream_new 5 true) None)
    as Hbypass.
  remember (Start None stopped) as first eqn:E1.
  destruct first as [[result s'] log].
  remember (Start None (IncomingVideoStream_new 5 true)) as second eqn:E2.
  destruct second as [[result2 s2] log2].
  cbn [fst snd].
  destruct H as ([_ Hfails] & _ & Hleft).
  assert (Hresult : result = -1) by (apply Hfails; repeat split).
  split; [ exact Hresult | ].
  split; [ apply (Hleft Hresult) | ].
  destruct Hbypass as ([Hwhy _] & Hok & _).
  apply Hok. intros Hminus. destruct (Hwhy Hminus) as (_ & Hmode & _).
  discriminate Hmode.
Defined.
